(** * pulse_adjoint: the demo and test scripts as programs over the external stack

    The repository holds two orchestration scripts,
    [demo/simple_scalar_optimization/demo.py] and [tests/test_assimilator.py].
    Every computation is done by [dolfin], [dolfin_adjoint], [pulse] and
    [pulse_adjoint]; the scripts only decide which operations are requested,
    in which order and with which arguments.

    The embedding follows that split.  A script is a tree of operations
    ([prog]): each node is one operation of Python's object protocol
    (attribute read, call, item read, comparison, ...) and the subtree is
    chosen by its result.  [run] executes a script: an operation whose
    result is fixed by the values at hand (indexing a tuple in range,
    comparing two ints, unpacking a pair) is computed by [builtin]; any
    other is a request handed to the world, that is the rest of the
    interpreter together with the external stack.  [run] records the trace
    of operations and results; the properties below are about these traces
    and hold for every world.

    A list or tuple literal of a script is a value of the model: the stack
    is taken not to mutate in place the lists it is handed.  Objects the
    stack creates, the [matparams] dict among them, are references whose
    reads and writes are requests. *)

From Stdlib Require Import ZArith List String Bool.
From Stdlib Require Import Floats.SpecFloat.
Import ListNotations.
Open Scope string_scope.
Open Scope Z_scope.

(** ** Values *)

(** A Python [float] is an IEEE 754 binary64 number. *)
Definition float64 : Type := spec_float.

(** The float denoted by the decimal literal [m]e-[k]: the correctly rounded
    quotient of two exactly representable integers. *)
Definition float_lit (m : Z) (k : nat) : float64 :=
  SFdiv 53 1024 (binary_normalize 53 1024 m 0 false)
                (binary_normalize 53 1024 (10 ^ Z.of_nat k) 0 false).

#[warnings="-register-all"]
Inductive val : Type :=
| VNone
| VBool (b : bool)
| VInt (n : Z)
| VFloat (x : float64)
| VStr (s : string)
| VTuple (items : list val)
| VList (items : list val)
| VBuiltin (name : string)                 (* a builtin function: exit *)
| VClosure (name : string) (env : list val) (* a nested def and what it captures *)
| VExc (cls : string)                      (* an exception raised by the interpreter *)
| VRef (id : nat).                         (* an object of the external stack *)

Definition kwargs : Type := list (string * val).

(** ** Operations *)

Inductive event : Type :=
| ImportName (module : string)                       (* import module *)
| ImportFrom (m : val) (name : string)               (* from module import name *)
| GetAttr (o : val) (attr : string)                  (* o.attr *)
| SetAttr (o : val) (attr : string) (v : val)        (* o.attr = v *)
| GetItem (o k : val)                                (* o[k] *)
| SetItem (o k v : val)                              (* o[k] = v *)
| Call (f : val) (args : list val) (kw : kwargs)     (* f(args..., kw...) *)
| Eq (a b : val)                                     (* a == b *)
| Truth (v : val)                                    (* bool(v) *)
| Unpack (v : val) (n : nat)                         (* x1, ..., xn = v *)
| Format (v : val)                                   (* format(v, '') *)
| Print (args : list val).                           (* print(args...): a line on the console *)

Inductive resp : Type :=
| RVal (v : val)
| RExc (e : val).

(** ** Scripts *)

Inductive prog (A : Type) : Type :=
| Ret (a : A)
| Raise (e : val)
| Vis (ev : event) (k : resp -> prog A).

Arguments Ret {A} a.
Arguments Raise {A} e.
Arguments Vis {A} ev k.

Fixpoint bind {A B : Type} (p : prog A) (f : A -> prog B) : prog B :=
  match p with
  | Ret a => f a
  | Raise e => Raise e
  | Vis ev k => Vis ev (fun r => bind (k r) f)
  end.

Notation "x <- p ;; q" := (bind p (fun x => q))
  (at level 61, p at next level, right associativity).
Notation "' pat <- p ;; q" := (bind p (fun x => match x with pat => q end))
  (at level 61, pat pattern, p at next level, right associativity).
Notation "p ;; q" := (bind p (fun _ => q))
  (at level 61, right associativity).

(** A request whose exception, if any, is passed on to the caller. *)
Definition perform (ev : event) : prog val :=
  Vis ev (fun r => match r with RVal v => Ret v | RExc e => Raise e end).

(** [try: p except: h]: the scripts never use it. *)
Fixpoint try_except {A : Type} (p : prog A) (h : val -> prog A) : prog A :=
  match p with
  | Ret a => Ret a
  | Raise e => h e
  | Vis ev k => Vis ev (fun r => try_except (k r) h)
  end.

Definition import_name (m : string) : prog val := perform (ImportName m).
Definition import_from (m : val) (name : string) : prog val := perform (ImportFrom m name).
Definition getattr (o : val) (a : string) : prog val := perform (GetAttr o a).
Definition setattr (o : val) (a : string) (v : val) : prog val := perform (SetAttr o a v).
Definition setitem (o k v : val) : prog val := perform (SetItem o k v).
Definition call (f : val) (args : list val) (kw : kwargs) : prog val :=
  perform (Call f args kw).

Definition subscript (o k : val) : prog val := perform (GetItem o k).
Definition py_eq (a b : val) : prog val := perform (Eq a b).

(** The truth test of [if]; [bool(v)] gives a bool or the interpreter raises. *)
Definition truth (v : val) : prog bool :=
  Vis (Truth v) (fun r =>
    match r with
    | RVal (VBool b) => Ret b
    | RVal _ => Raise (VExc "TypeError")
    | RExc e => Raise e
    end).

(** [a, b = v] *)
Definition unpack2 (v : val) : prog (val * val) :=
  Vis (Unpack v 2) (fun r =>
    match r with
    | RVal (VTuple [a; b]) => Ret (a, b)
    | RVal _ => Raise (VExc "ValueError")
    | RExc e => Raise e
    end).

(** A replacement field [{v}] of an f-string; [format()] answers a string or
    the interpreter raises. *)
Definition format_value (v : val) : prog string :=
  Vis (Format v) (fun r =>
    match r with
    | RVal (VStr s) => Ret s
    | RVal _ => Raise (VExc "TypeError")
    | RExc e => Raise e
    end).

Definition print (v : val) : prog val := perform (Print [v]).

(** ** Running a script against a world *)

Inductive outcome (A : Type) : Type :=
| Done (a : A)
| Raised (e : val).

Arguments Done {A} a.
Arguments Raised {A} e.

Definition trace : Type := list (event * resp).

(** Sequence indexing with Python's negative indices. *)
Definition index (l : list val) (i : Z) : option val :=
  let n := Z.of_nat (List.length l) in
  if 0 <=? i then nth_error l (Z.to_nat i)
  else if - n <=? i then nth_error l (Z.to_nat (n + i))
  else None.

(** The operations the interpreter settles on its own. *)
Definition builtin (ev : event) : option resp :=
  match ev with
  | GetItem (VTuple l) (VInt i) | GetItem (VList l) (VInt i) =>
      match index l i with
      | Some v => Some (RVal v)
      | None => None
      end
  | Eq (VInt m) (VInt n) => Some (RVal (VBool (m =? n)))
  | Truth (VBool b) => Some (RVal (VBool b))
  | Unpack (VTuple l) n | Unpack (VList l) n =>
      if Nat.eqb (List.length l) n then Some (RVal (VTuple l)) else None
  | _ => None
  end.

Section Run.
Context {world : Type}.
Variable h : world -> event -> resp * world.

(** The trace of operations and results, how the script ended, and the
    world it left behind. *)
Fixpoint run {A : Type} (p : prog A) (w : world) : trace * outcome A * world :=
  match p with
  | Ret a => ([], Done a, w)
  | Raise e => ([], Raised e, w)
  | Vis ev k =>
      let '(r, w1) := match builtin ev with
                      | Some r => (r, w)
                      | None => h w ev
                      end in
      let '(tr, out, w2) := run (k r) w1 in
      ((ev, r) :: tr, out, w2)
  end.

Definition trace_of {A : Type} (p : prog A) (w : world) : trace := fst (fst (run p w)).
Definition outcome_of {A : Type} (p : prog A) (w : world) : outcome A := snd (fst (run p w)).

End Run.

(** ** demo/simple_scalar_optimization/demo.py *)

Module Demo.
Section Globals.
(** The module globals bound by the four [import] statements. *)
Variables dolfin dolfin_adjoint pulse pulse_adjoint : val.

(** [fix_basal_plane], the closure nested in [create_problem]; [geometry]
    is the local it captures. *)
Definition fix_basal_plane (geometry W : val) : prog val :=
  (* V = W if W.sub(0).num_sub_spaces() == 0 else W.sub(0) *)
  sub <- getattr W "sub" ;;
  W0 <- call sub [VInt 0] [] ;;
  nss <- getattr W0 "num_sub_spaces" ;;
  n <- call nss [] [] ;;
  c <- py_eq n (VInt 0) ;;
  b <- truth c ;;
  V <- (if b then Ret W
        else sub' <- getattr W "sub" ;; call sub' [VInt 0] []) ;;
  (* bc = dolfin_adjoint.DirichletBC(V.sub(0), dolfin.Constant(0.0, name="fix_base"),
                                     geometry.ffun, geometry.markers["BASE"][0]) *)
  DirichletBC <- getattr dolfin_adjoint "DirichletBC" ;;
  vsub <- getattr V "sub" ;;
  V0 <- call vsub [VInt 0] [] ;;
  Constant <- getattr dolfin "Constant" ;;
  zero <- call Constant [VFloat (float_lit 0 1)] [("name", VStr "fix_base")] ;;
  ffun <- getattr geometry "ffun" ;;
  markers <- getattr geometry "markers" ;;
  base <- subscript markers (VStr "BASE") ;;
  marker <- subscript base (VInt 0) ;;
  bc <- call DirichletBC [V0; zero; ffun; marker] [] ;;
  Ret bc.

Definition create_problem : prog (val * val) :=
  (* geometry = pulse.HeartGeometry.from_file(pulse.mesh_paths["simple_ellipsoid"]) *)
  HeartGeometry <- getattr pulse "HeartGeometry" ;;
  from_file <- getattr HeartGeometry "from_file" ;;
  mesh_paths <- getattr pulse "mesh_paths" ;;
  path <- subscript mesh_paths (VStr "simple_ellipsoid") ;;
  geometry <- call from_file [path] [] ;;
  (* activation = dolfin_adjoint.Function(
         dolfin.FunctionSpace(geometry.mesh, "R", 0), name="activation") *)
  Function <- getattr dolfin_adjoint "Function" ;;
  FunctionSpace <- getattr dolfin "FunctionSpace" ;;
  mesh <- getattr geometry "mesh" ;;
  R <- call FunctionSpace [mesh; VStr "R"; VInt 0] [] ;;
  activation <- call Function [R] [("name", VStr "activation")] ;;
  (* activation.assign(dolfin_adjoint.Constant(0.0)) *)
  assign <- getattr activation "assign" ;;
  Constant <- getattr dolfin_adjoint "Constant" ;;
  c0 <- call Constant [VFloat (float_lit 0 1)] [] ;;
  call assign [c0] [] ;;
  (* matparams = pulse.HolzapfelOgden.default_parameters() *)
  HolzapfelOgden <- getattr pulse "HolzapfelOgden" ;;
  default_parameters <- getattr HolzapfelOgden "default_parameters" ;;
  matparams <- call default_parameters [] [] ;;
  (* V = dolfin.FunctionSpace(geometry.mesh, "R", 0) *)
  FunctionSpace <- getattr dolfin "FunctionSpace" ;;
  mesh <- getattr geometry "mesh" ;;
  V <- call FunctionSpace [mesh; VStr "R"; VInt 0] [] ;;
  (* control = dolfin_adjoint.Function(V) *)
  Function <- getattr dolfin_adjoint "Function" ;;
  control <- call Function [V] [] ;;
  (* control.assign(dolfin_adjoint.Constant(1.0)) *)
  assign <- getattr control "assign" ;;
  Constant <- getattr dolfin_adjoint "Constant" ;;
  c1 <- call Constant [VFloat (float_lit 10 1)] [] ;;
  call assign [c1] [] ;;
  (* matparams["a"] = control *)
  setitem matparams (VStr "a") control ;;
  (* f0 = dolfin_adjoint.Function(geometry.f0.function_space()); f0.assign(geometry.f0) *)
  Function <- getattr dolfin_adjoint "Function" ;;
  g_f0 <- getattr geometry "f0" ;;
  function_space <- getattr g_f0 "function_space" ;;
  S <- call function_space [] [] ;;
  f0 <- call Function [S] [] ;;
  assign <- getattr f0 "assign" ;;
  g_f0 <- getattr geometry "f0" ;;
  call assign [g_f0] [] ;;
  (* s0 = dolfin_adjoint.Function(geometry.s0.function_space()); s0.assign(geometry.s0) *)
  Function <- getattr dolfin_adjoint "Function" ;;
  g_s0 <- getattr geometry "s0" ;;
  function_space <- getattr g_s0 "function_space" ;;
  S <- call function_space [] [] ;;
  s0 <- call Function [S] [] ;;
  assign <- getattr s0 "assign" ;;
  g_s0 <- getattr geometry "s0" ;;
  call assign [g_s0] [] ;;
  (* n0 = dolfin_adjoint.Function(geometry.n0.function_space()); n0.assign(geometry.n0) *)
  Function <- getattr dolfin_adjoint "Function" ;;
  g_n0 <- getattr geometry "n0" ;;
  function_space <- getattr g_n0 "function_space" ;;
  S <- call function_space [] [] ;;
  n0 <- call Function [S] [] ;;
  assign <- getattr n0 "assign" ;;
  g_n0 <- getattr geometry "n0" ;;
  call assign [g_n0] [] ;;
  (* material = pulse.HolzapfelOgden(
         activation=activation, parameters=matparams, f0=f0, s0=s0, n0=n0) *)
  HolzapfelOgden <- getattr pulse "HolzapfelOgden" ;;
  material <- call HolzapfelOgden []
                [("activation", activation); ("parameters", matparams);
                 ("f0", f0); ("s0", s0); ("n0", n0)] ;;
  (* lvp = dolfin_adjoint.Constant(0.0, name="lvp") *)
  Constant <- getattr dolfin_adjoint "Constant" ;;
  lvp <- call Constant [VFloat (float_lit 0 1)] [("name", VStr "lvp")] ;;
  (* lv_marker = geometry.markers["ENDO"][0] *)
  markers <- getattr geometry "markers" ;;
  endo <- subscript markers (VStr "ENDO") ;;
  lv_marker <- subscript endo (VInt 0) ;;
  (* lv_pressure = pulse.NeumannBC(traction=lvp, marker=lv_marker, name="lv") *)
  NeumannBC <- getattr pulse "NeumannBC" ;;
  lv_pressure <- call NeumannBC []
                   [("traction", lvp); ("marker", lv_marker); ("name", VStr "lv")] ;;
  let neumann_bc := VList [lv_pressure] in
  (* robin_bc = [pulse.RobinBC(
         value=dolfin_adjoint.Constant(base_spring, name="base_spring"),
         marker=geometry.markers["BASE"][0])] *)
  let base_spring := VFloat (float_lit 10 1) in
  RobinBC <- getattr pulse "RobinBC" ;;
  Constant <- getattr dolfin_adjoint "Constant" ;;
  spring <- call Constant [base_spring] [("name", VStr "base_spring")] ;;
  markers <- getattr geometry "markers" ;;
  base <- subscript markers (VStr "BASE") ;;
  base_marker <- subscript base (VInt 0) ;;
  robin <- call RobinBC [] [("value", spring); ("marker", base_marker)] ;;
  let robin_bc := VList [robin] in
  (* dirichlet_bc = [fix_basal_plane] *)
  let dirichlet_bc := VList [VClosure "fix_basal_plane" [geometry]] in
  (* bcs = pulse.BoundaryConditions(
         dirichlet=dirichlet_bc, neumann=neumann_bc, robin=robin_bc) *)
  BoundaryConditions <- getattr pulse "BoundaryConditions" ;;
  bcs <- call BoundaryConditions []
           [("dirichlet", dirichlet_bc); ("neumann", neumann_bc); ("robin", robin_bc)] ;;
  (* problem = pulse.MechanicsProblem(geometry, material, bcs) *)
  MechanicsProblem <- getattr pulse "MechanicsProblem" ;;
  problem <- call MechanicsProblem [geometry; material; bcs] [] ;;
  Ret (problem, control).

(** The body of a closure value, for whoever calls it. *)
Definition apply_closure (f : val) (args : list val) : prog val :=
  match f, args with
  | VClosure "fix_basal_plane" [geometry], [W] => fix_basal_plane geometry W
  | _, _ => call f args []
  end.

Definition main : prog val :=
  (* pulse.annotation.annotate = True *)
  annotation <- getattr pulse "annotation" ;;
  setattr annotation "annotate" (VBool true) ;;
  (* problem, control = create_problem() *)
  '(problem, control) <- create_problem ;;
  let pressure_data := VList [VFloat (float_lit 1 1)] in
  let volume_data := VList [VFloat (float_lit 28 1)] in
  (* endo = problem.geometry.markers["ENDO"][0] *)
  geometry <- getattr problem "geometry" ;;
  markers <- getattr geometry "markers" ;;
  endo_pair <- subscript markers (VStr "ENDO") ;;
  endo <- subscript endo_pair (VInt 0) ;;
  (* volume_model = pulse_adjoint.model_observations.VolumeObservation(
         problem.geometry.mesh, problem.geometry.ds(endo)) *)
  model_observations <- getattr pulse_adjoint "model_observations" ;;
  VolumeObservation <- getattr model_observations "VolumeObservation" ;;
  geometry <- getattr problem "geometry" ;;
  mesh <- getattr geometry "mesh" ;;
  geometry <- getattr problem "geometry" ;;
  ds <- getattr geometry "ds" ;;
  dmu <- call ds [endo] [] ;;
  volume_model <- call VolumeObservation [mesh; dmu] [] ;;
  (* volume_target = pulse_adjoint.OptimizationTarget(volume_data, volume_model) *)
  OptimizationTarget <- getattr pulse_adjoint "OptimizationTarget" ;;
  volume_target <- call OptimizationTarget [volume_data; volume_model] [] ;;
  (* pressure_obs = pulse_adjoint.model_observations.BoundaryObservation(
         problem.bcs.neumann[0], pressure_data) *)
  model_observations <- getattr pulse_adjoint "model_observations" ;;
  BoundaryObservation <- getattr model_observations "BoundaryObservation" ;;
  bcs <- getattr problem "bcs" ;;
  neumann <- getattr bcs "neumann" ;;
  lv <- subscript neumann (VInt 0) ;;
  pressure_obs <- call BoundaryObservation [lv; pressure_data] [] ;;
  (* assimilator = pulse_adjoint.Assimilator(
         problem, targets=[volume_target], bcs=pressure_obs, control=control) *)
  Assimilator <- getattr pulse_adjoint "Assimilator" ;;
  assimilator <- call Assimilator [problem]
                   [("targets", VList [volume_target]); ("bcs", pressure_obs);
                    ("control", control)] ;;
  (* optimal_control = assimilator.assimilate() *)
  assimilate <- getattr assimilator "assimilate" ;;
  optimal_control <- call assimilate [] [] ;;
  (* problem.material.a.assign(dolfin.Constant(optimal_control.optimal_control)) *)
  material <- getattr problem "material" ;;
  a <- getattr material "a" ;;
  assign <- getattr a "assign" ;;
  Constant <- getattr dolfin "Constant" ;;
  oc <- getattr optimal_control "optimal_control" ;;
  c <- call Constant [oc] [] ;;
  call assign [c] [] ;;
  (* problem.solve() *)
  solve <- getattr problem "solve" ;;
  call solve [] [] ;;
  (* u, p = dolfin.split(problem.state) *)
  split <- getattr dolfin "split" ;;
  state <- getattr problem "state" ;;
  up <- call split [state] [] ;;
  '(u, p) <- unpack2 up ;;
  (* volume = problem.geometry.cavity_volume(u=u) *)
  geometry <- getattr problem "geometry" ;;
  cavity_volume <- getattr geometry "cavity_volume" ;;
  volume <- call cavity_volume [] [("u", u)] ;;
  (* print(f"Target volume: {volume_data[0]}") *)
  target <- subscript volume_data (VInt 0) ;;
  s <- format_value target ;;
  print (VStr ("Target volume: " ++ s)) ;;
  (* print(f"Model volume: {volume}") *)
  s <- format_value volume ;;
  print (VStr ("Model volume: " ++ s)) ;;
  (* print(f"Estimated material parameters {optimal_control.optimal_control}") *)
  oc <- getattr optimal_control "optimal_control" ;;
  s <- format_value oc ;;
  print (VStr ("Estimated material parameters " ++ s)) ;;
  Ret VNone.

End Globals.

(** The file run as a script: the imports, then [main()]. *)
Definition script : prog val :=
  dolfin <- import_name "dolfin" ;;
  dolfin_adjoint <- import_name "dolfin_adjoint" ;;
  pulse <- import_name "pulse" ;;
  pulse_adjoint <- import_name "pulse_adjoint" ;;
  main dolfin dolfin_adjoint pulse pulse_adjoint.

End Demo.

(** ** tests/test_assimilator.py *)

Module TestAssimilator.
Section Globals.
(** The module globals: two modules and the four names imported from
    [pulse_adjoint]. *)
Variables dolfin fixtures : val.
Variables Assimilator BoundaryObservation OptimizationTarget VolumeObservation : val.

Definition main : prog val :=
  (* problem, control = fixtures.create_problem() *)
  create_problem <- getattr fixtures "create_problem" ;;
  pc <- call create_problem [] [] ;;
  '(problem, control) <- unpack2 pc ;;
  (* geo = problem.geometry *)
  geo <- getattr problem "geometry" ;;
  (* V_cg2 = dolfin.VectorFunctionSpace(geo.mesh, "CG", 2) *)
  VectorFunctionSpace <- getattr dolfin "VectorFunctionSpace" ;;
  mesh <- getattr geo "mesh" ;;
  V_cg2 <- call VectorFunctionSpace [mesh; VStr "CG"; VInt 2] [] ;;
  (* u = dolfin.Function(V_cg2) *)
  Function <- getattr dolfin "Function" ;;
  u <- call Function [V_cg2] [] ;;
  (* volume_obs = VolumeObservation(
         mesh=geo.mesh, dmu=geo.ds(geo.markers["ENDO"]), description="Test LV volume") *)
  mesh <- getattr geo "mesh" ;;
  ds <- getattr geo "ds" ;;
  markers <- getattr geo "markers" ;;
  endo <- subscript markers (VStr "ENDO") ;;
  dmu <- call ds [endo] [] ;;
  volume_obs <- call VolumeObservation []
                  [("mesh", mesh); ("dmu", dmu); ("description", VStr "Test LV volume")] ;;
  (* model_volume = volume_obs(u).vector().get_local()[0] *)
  obs <- call volume_obs [u] [] ;;
  vector <- getattr obs "vector" ;;
  vec <- call vector [] [] ;;
  get_local <- getattr vec "get_local" ;;
  arr <- call get_local [] [] ;;
  model_volume <- subscript arr (VInt 0) ;;
  (* print(model_volume) *)
  print model_volume ;;
  let volumes := VTuple [VFloat (float_lit 27 1); VFloat (float_lit 29 1)] in
  (* target = OptimizationTarget(volumes, volume_obs, collect=True) *)
  target <- call OptimizationTarget [volumes; volume_obs] [("collect", VBool true)] ;;
  let lvp := VList [VFloat (float_lit 5 1); VFloat (float_lit 10 1)] in
  (* bcs = BoundaryObservation(bc=problem.bcs.neumann[0], data=lvp) *)
  pbcs <- getattr problem "bcs" ;;
  neumann <- getattr pbcs "neumann" ;;
  lv <- subscript neumann (VInt 0) ;;
  bcs <- call BoundaryObservation [] [("bc", lv); ("data", lvp)] ;;
  (* assimilator = Assimilator(problem, target, bcs, control) *)
  assimilator <- call Assimilator [problem; target; bcs; control] [] ;;
  (* assimilator.assimilate() *)
  assimilate <- getattr assimilator "assimilate" ;;
  call assimilate [] [] ;;
  (* from IPython import embed *)
  IPython <- import_name "IPython" ;;
  embed <- import_from IPython "embed" ;;
  (* embed() *)
  call embed [] [] ;;
  (* exit() *)
  call (VBuiltin "exit") [] [] ;;
  Ret VNone.

End Globals.

Definition script : prog val :=
  dolfin <- import_name "dolfin" ;;
  fixtures <- import_name "fixtures" ;;
  pulse_adjoint <- import_name "pulse_adjoint" ;;
  Assimilator <- import_from pulse_adjoint "Assimilator" ;;
  BoundaryObservation <- import_from pulse_adjoint "BoundaryObservation" ;;
  OptimizationTarget <- import_from pulse_adjoint "OptimizationTarget" ;;
  VolumeObservation <- import_from pulse_adjoint "VolumeObservation" ;;
  main dolfin fixtures Assimilator BoundaryObservation OptimizationTarget VolumeObservation.

End TestAssimilator.

(** ** Reading a trace *)

(** The operation gave a result, of the kind the protocol prescribes:
    [bool()] gives a bool, [format()] a string, unpacking into [n] names a
    sequence of [n] items. *)
Definition answered (e : event * resp) : bool :=
  match e with
  | (_, RExc _) => false
  | (Truth _, RVal (VBool _)) => true
  | (Truth _, RVal _) => false
  | (Format _, RVal (VStr _)) => true
  | (Format _, RVal _) => false
  | (Unpack _ n, RVal (VTuple l)) => Nat.eqb (List.length l) n
  | (Unpack _ _, RVal _) => false
  | (_, RVal _) => true
  end.

Definition all_answered (tr : trace) : bool := forallb answered tr.

(** [x] occurs in [l] and [y] occurs later. *)
Inductive before {A : Type} (x y : A) : list A -> Prop :=
| before_here l : In y l -> before x y (x :: l)
| before_later z l : before x y l -> before x y (z :: l).

(** In this run [o.a] was read and gave [v]. *)
Definition attr_of (tr : trace) (o : val) (a : string) (v : val) : Prop :=
  In (GetAttr o a, RVal v) tr.

(** In this run [o[k]] was read and gave [v]. *)
Definition item_of (tr : trace) (o k v : val) : Prop :=
  In (GetItem o k, RVal v) tr.

(** In this run [m.name(args, kw)] was evaluated and gave [obj]. *)
Definition made_by (tr : trace) (m : val) (name : string)
    (args : list val) (kw : kwargs) (obj : val) : Prop :=
  exists c, attr_of tr m name c /\ In (Call c args kw, RVal obj) tr.

(** In this run [geometry.markers[name][0]] gave [id], by way of the
    table entry [entry]. *)
Definition marker_of (tr : trace) (geometry : val) (name : string)
    (entry id : val) : Prop :=
  exists markers,
    attr_of tr geometry "markers" markers /\
    item_of tr markers (VStr name) entry /\
    item_of tr entry (VInt 0) id.

(** The lines a run prints: the arguments of its [print] calls, in order. *)
Fixpoint printed (tr : trace) : list (list val) :=
  match tr with
  | [] => []
  | (Print args, _) :: tr' => args :: printed tr'
  | _ :: tr' => printed tr'
  end.

(** The attribute and item assignments of a run, in order. *)
Fixpoint assignments (tr : trace) : list event :=
  match tr with
  | [] => []
  | (SetAttr o a v, _) :: tr' => SetAttr o a v :: assignments tr'
  | (SetItem o k v, _) :: tr' => SetItem o k v :: assignments tr'
  | _ :: tr' => assignments tr'
  end.

(** [post] is what follows an occurrence of [x] in [l]. *)
Inductive after {A : Type} (x : A) (post : list A) : list A -> Prop :=
| after_here : after x post (x :: post)
| after_later z l : after x post l -> after x post (z :: l).

(** The calls of a run, in order. *)
Fixpoint calls (tr : trace) : list event :=
  match tr with
  | [] => []
  | (Call f args kw, _) :: tr' => Call f args kw :: calls tr'
  | _ :: tr' => calls tr'
  end.

(** In this run the test [a == b] of an [if] came out as [t]. *)
Definition tested_equal (tr : trace) (a b : val) (t : bool) : Prop :=
  exists c, In (Eq a b, RVal c) tr /\ In (Truth c, RVal (VBool t)) tr.

(** In this run [assimilator.assimilate()] was called and returned
    [result]; [post] is the rest of the run. *)
Definition assimilate_returned (tr : trace) (assimilator result : val)
    (post : trace) : Prop :=
  exists assimilate,
    attr_of tr assimilator "assimilate" assimilate /\
    after (Call assimilate [] [], RVal result) post tr.

(** In this stretch of a run [problem.material.a] was assigned a constant
    made from [optimal_control.optimal_control], [problem.solve()] was
    called after that, and nothing was printed before [solve()] returned. *)
Definition reassigned_and_resolved (post : trace) (problem optimal_control : val) : Prop :=
  exists material a assign value Constant c r solve r' post',
    attr_of post problem "material" material /\
    attr_of post material "a" a /\
    attr_of post a "assign" assign /\
    attr_of post optimal_control "optimal_control" value /\
    In (Call Constant [value] [], RVal c) post /\
    attr_of post problem "solve" solve /\
    before (Call assign [c] [], r) (Call solve [] [], RVal r') post /\
    after (Call solve [] [], RVal r') post' post /\
    printed post = printed post'.


(** The objects whose attribute [a] a run reads, in order. *)
Fixpoint read_from (a : string) (tr : trace) : list val :=
  match tr with
  | [] => []
  | (GetAttr o a', _) :: tr' =>
      if String.eqb a a' then o :: read_from a tr' else read_from a tr'
  | _ :: tr' => read_from a tr'
  end.

(** The attribute names a script may read all satisfy [P]. *)
Definition reads_only (P : string -> Prop) (ev : event) : Prop :=
  match ev with
  | GetAttr _ a => P a
  | _ => True
  end.

(** ** Scripts without exception handlers *)

(** Every operation passes an exception on as it is, and the script goes
    on only after a result. *)
Inductive no_handler {A : Type} : prog A -> Prop :=
| nh_ret a : no_handler (Ret a)
| nh_raise e : no_handler (Raise e)
| nh_vis ev k :
    (forall e, k (RExc e) = Raise e) ->
    (forall v, no_handler (k (RVal v))) ->
    no_handler (Vis ev k).

(** Every operation a script may perform satisfies [P]. *)
Inductive all_events (P : event -> Prop) {A : Type} : prog A -> Prop :=
| ae_ret a : all_events P (Ret a)
| ae_raise e : all_events P (Raise e)
| ae_vis ev k : P ev -> (forall r, all_events P (k r)) -> all_events P (Vis ev k).







(** The code of the repository: the two scripts, and the closure that
    [create_problem] hands to the stack. *)
Inductive repo_code : prog val -> Prop :=
| code_demo : repo_code Demo.script
| code_test : repo_code TestAssimilator.script
| code_closure dolfin dolfin_adjoint geometry W :
    repo_code (Demo.fix_basal_plane dolfin dolfin_adjoint geometry W).

(** ** A stand-in for the external stack

    Used to run the scripts on a concrete input.  Every object it hands out
    is a fresh reference; the log of the requests it got tells how each
    object came to be.  The marker table is that of the simple ellipsoid, a string to
    (id, dimension) mapping. *)

Module Stack.

Record config : Type := {
  num_sub_spaces : Z;        (* what W.sub(0).num_sub_spaces() answers *)
  fails_at : option nat      (* the request, counted from 0, that raises *)
}.

Definition world : Type := list event.

Definition fresh (w : world) : val := VRef (2 * List.length w).
Definition fresh' (w : world) : val := VRef (2 * List.length w + 1).

(** The attribute name an object was read from. *)
Definition name_of (w : world) (v : val) : string :=
  match v with
  | VRef id =>
      match nth_error w (Nat.div2 id) with
      | Some (GetAttr _ a) => a
      | Some (ImportFrom _ a) => a
      | _ => ""
      end
  | _ => ""
  end.

Definition render (v : val) : string :=
  match v with
  | VFloat x => if SFeqb x (float_lit 28 1) then "2.8" else "<float>"
  | _ => "<object>"
  end.

Definition answer (c : config) (w : world) (ev : event) : resp :=
  match ev with
  | GetItem _ (VStr "ENDO") => RVal (VTuple [VInt 30; VInt 2])
  | GetItem _ (VStr "BASE") => RVal (VTuple [VInt 10; VInt 1])
  | SetAttr _ _ _ | SetItem _ _ _ | Print _ => RVal VNone
  | Call (VBuiltin "exit") _ _ => RExc (VExc "SystemExit")
  | Call f _ _ =>
      let a := name_of w f in
      if String.eqb a "num_sub_spaces" then RVal (VInt (num_sub_spaces c))
      else if String.eqb a "split" || String.eqb a "create_problem"
      then RVal (VTuple [fresh w; fresh' w])
      else RVal (fresh w)
  | Eq _ _ => RVal (VBool false)
  | Truth _ => RVal (VBool true)
  | Unpack _ n => RVal (VTuple (repeat (fresh w) n))
  | Format v => RVal (VStr (render v))
  | _ => RVal (fresh w)
  end.

Definition handler (c : config) (w : world) (ev : event) : resp * world :=
  let r := match fails_at c with
           | Some k => if Nat.eqb k (List.length w)
                       then RExc (VExc "RuntimeError") else answer c w ev
           | None => answer c w ev
           end in
  (r, (w ++ [ev])%list).

(** The stack as it behaves when nothing goes wrong, on a state space that
    is not mixed. *)
Definition ellipsoid : config := {| num_sub_spaces := 0; fails_at := None |}.

(** The same stack when the mesh file is missing: [from_file], its request
    number 10, raises. *)
Definition missing_mesh : config := {| num_sub_spaces := 0; fails_at := Some 10%nat |}.

(** The same stack on a mixed state space. *)
Definition mixed : config := {| num_sub_spaces := 3; fails_at := None |}.

End Stack.

(** The traces of the two scripts on that stack. *)
Abbreviation ellipsoid_demo :=
  (trace_of (Stack.handler Stack.ellipsoid) Demo.script []).
Abbreviation ellipsoid_test :=
  (trace_of (Stack.handler Stack.ellipsoid) TestAssimilator.script []).

(** * Properties *)

Open Scope list_scope.

Lemma answered_exc ev e : answered (ev, RExc e) = false.
Proof. destruct ev; reflexivity. Qed.

Lemma run_eta {world A} (h : world -> event -> resp * world) (p : prog A) w :
  run h p w = (trace_of h p w, outcome_of h p w, snd (run h p w)).
Proof.
  unfold trace_of, outcome_of. destruct (run h p w) as [[tr out] w']. reflexivity.
Qed.

(** ** Scripts without handlers pass every failure on *)

Lemma no_handler_bind {A B} (p : prog A) (f : A -> prog B) :
  no_handler p -> (forall a, no_handler (f a)) -> no_handler (bind p f).
Proof.
  intros Hp Hf. induction Hp as [a | e | ev k Hexc Hval IH]; simpl.
  - apply Hf.
  - constructor.
  - constructor.
    + intros e. rewrite Hexc. reflexivity.
    + intros v. apply IH.
Qed.

Lemma no_handler_perform ev : no_handler (perform ev).
Proof. constructor; [reflexivity | intros v; constructor]. Qed.

Lemma no_handler_truth v : no_handler (truth v).
Proof.
  constructor; [reflexivity | intros [ | | | | | | | | | | ]; constructor].
Qed.

Lemma no_handler_unpack2 v : no_handler (unpack2 v).
Proof.
  constructor; [reflexivity | ].
  intros [ | | | | | l | | | | | ]; try constructor.
  destruct l as [|a [|b [|c l]]]; constructor.
Qed.

Lemma no_handler_format v : no_handler (format_value v).
Proof.
  constructor; [reflexivity | intros [ | | | | | | | | | | ]; constructor].
Qed.

Create HintDb handlers.
#[local] Hint Resolve no_handler_perform no_handler_truth no_handler_unpack2
  no_handler_format : handlers.
#[local] Hint Constructors no_handler : handlers.

Ltac no_handlers :=
  repeat first
    [ apply no_handler_bind; [ | intros ]
    | progress unfold getattr, setattr, setitem, call, import_name, import_from,
        print, subscript, py_eq
    | solve [auto with handlers]
    | match goal with
      | x : (val * val)%type |- _ => destruct x
      | |- no_handler (if ?b then _ else _) => destruct b
      end ].

Lemma fix_basal_plane_no_handler dolfin dolfin_adjoint geometry W :
  no_handler (Demo.fix_basal_plane dolfin dolfin_adjoint geometry W).
Proof. unfold Demo.fix_basal_plane. no_handlers. Qed.

Lemma create_problem_no_handler dolfin dolfin_adjoint pulse :
  no_handler (Demo.create_problem dolfin dolfin_adjoint pulse).
Proof. unfold Demo.create_problem. no_handlers. Qed.

Lemma demo_no_handler : no_handler Demo.script.
Proof.
  unfold Demo.script, Demo.main.
  pose proof create_problem_no_handler. no_handlers.
Qed.

Lemma test_no_handler : no_handler TestAssimilator.script.
Proof. unfold TestAssimilator.script, TestAssimilator.main. no_handlers. Qed.

Lemma repo_code_no_handler p : repo_code p -> no_handler p.
Proof.
  intros [ | | ? ? ? ?];
    auto using demo_no_handler, test_no_handler, fix_basal_plane_no_handler.
Qed.

Section Propagation.
Context {world : Type} (h : world -> event -> resp * world).

Lemma no_handler_run {A} (p : prog A) :
  no_handler p ->
  forall w tr out w' i ev e,
    run h p w = (tr, out, w') ->
    nth_error tr i = Some (ev, RExc e) ->
    S i = List.length tr /\ out = Raised e.
Proof.
  induction 1 as [a | e0 | ev0 k Hexc Hval IH]; intros w tr out w' i ev e Hrun Hi.
  - injection Hrun as <- _ _. destruct i; discriminate.
  - injection Hrun as <- _ _. destruct i; discriminate.
  - simpl in Hrun.
    destruct (match builtin ev0 with Some r => (r, w) | None => h w ev0 end)
      as [[v | e1] w1].
    + destruct (run h (k (RVal v)) w1) as [[tr1 out1] w2] eqn:Hk.
      injection Hrun as <- <- <-. destruct i as [|i]; [discriminate | ].
      simpl in Hi. destruct (IH v _ _ _ _ _ _ _ Hk Hi) as [Hlen Hout].
      simpl. split; congruence.
    + rewrite Hexc in Hrun. simpl in Hrun. injection Hrun as <- <- <-.
      destruct i as [|[|i]]; simpl in Hi; try discriminate.
      injection Hi as _ <-. split; reflexivity.
Qed.

(** What the interpreter settles on its own is recorded as it settles it. *)
Lemma run_builtin {A} (p : prog A) w tr out w' ev r r' :
  run h p w = (tr, out, w') ->
  In (ev, r) tr -> builtin ev = Some r' -> r = r'.
Proof.
  revert w tr out w'. induction p as [a | e | ev0 k IH]; intros w tr out w' Hrun Hin Hb.
  - injection Hrun as <- _ _. destruct Hin.
  - injection Hrun as <- _ _. destruct Hin.
  - simpl in Hrun.
    destruct (builtin ev0) as [r0 | ] eqn:Hb0.
    + destruct (run h (k r0) w) as [[tr1 out1] w2] eqn:Hk.
      injection Hrun as <- <- <-. destruct Hin as [Heq | Hin].
      * injection Heq as -> ->. congruence.
      * eapply IH; eauto.
    + destruct (h w ev0) as [r0 w1].
      destruct (run h (k r0) w1) as [[tr1 out1] w2] eqn:Hk.
      injection Hrun as <- <- <-. destruct Hin as [Heq | Hin].
      * injection Heq as -> ->. congruence.
      * eapply IH; eauto.
Qed.

End Propagation.

(** ** Running a script step by step *)

Section Steps.
Context {world : Type} (h : world -> event -> resp * world).

Lemma step_ret {A} (a : A) w tr out w' :
  run h (Ret a) w = (tr, out, w') -> tr = [] /\ out = Done a.
Proof. intros H. injection H as <- <- _. split; reflexivity. Qed.

Lemma step_perform {A} ev (F : val -> prog A) w tr out w' :
  run h (bind (perform ev) F) w = (tr, out, w') ->
  all_answered tr = true ->
  exists v w1 tr1,
    tr = (ev, RVal v) :: tr1 /\
    run h (F v) w1 = (tr1, out, w') /\ all_answered tr1 = true.
Proof.
  cbn -[builtin]. intros H Hans.
  destruct (match builtin ev with Some r => (r, w) | None => h w ev end)
    as [[v | e] w1]; simpl in H.
  - destruct (run h (F v) w1) as [[tr1 out1] w2] eqn:HF.
    injection H as <- <- <-. simpl in Hans.
    apply andb_true_iff in Hans as [_ Hans]. eauto 6.
  - injection H as <- _ _. cbn [all_answered forallb] in Hans.
    rewrite answered_exc in Hans. discriminate.
Qed.

Lemma step_builtin {A} ev v0 (F : val -> prog A) w tr out w' :
  builtin ev = Some (RVal v0) ->
  run h (bind (perform ev) F) w = (tr, out, w') ->
  all_answered tr = true ->
  exists tr1,
    tr = (ev, RVal v0) :: tr1 /\
    run h (F v0) w = (tr1, out, w') /\ all_answered tr1 = true.
Proof.
  cbn -[builtin]. intros -> H Hans. simpl in H.
  destruct (run h (F v0) w) as [[tr1 out1] w2] eqn:HF.
  injection H as <- <- <-. simpl in Hans.
  apply andb_true_iff in Hans as [_ Hans]. eauto.
Qed.

Lemma step_truth {A} v (F : bool -> prog A) w tr out w' :
  run h (bind (truth v) F) w = (tr, out, w') ->
  all_answered tr = true ->
  exists t w1 tr1,
    tr = (Truth v, RVal (VBool t)) :: tr1 /\
    run h (F t) w1 = (tr1, out, w') /\ all_answered tr1 = true.
Proof.
  cbn -[builtin]. intros H Hans.
  destruct (match builtin (Truth v) with Some r => (r, w) | None => h w (Truth v) end)
    as [[[ | t | | | | | | | | | ] | e] w1]; simpl in H;
    try (injection H as <- _ _; simpl in Hans; discriminate Hans).
  destruct (run h (F t) w1) as [[tr1 out1] w2] eqn:HF.
  injection H as <- <- <-. simpl in Hans. eauto 6.
Qed.

Lemma step_unpack2 {A} v (F : val * val -> prog A) w tr out w' :
  run h (bind (unpack2 v) F) w = (tr, out, w') ->
  all_answered tr = true ->
  exists a b w1 tr1,
    tr = (Unpack v 2, RVal (VTuple [a; b])) :: tr1 /\
    run h (F (a, b)) w1 = (tr1, out, w') /\ all_answered tr1 = true.
Proof.
  cbn -[builtin]. intros H Hans.
  destruct (match builtin (Unpack v 2) with
            | Some r => (r, w) | None => h w (Unpack v 2) end)
    as [[[ | | | | | l | | | | | ] | e] w1]; simpl in H;
    try (injection H as <- _ _; simpl in Hans; discriminate Hans).
  destruct l as [|a [|b [|c l]]]; simpl in H;
    try (injection H as <- _ _; simpl in Hans; discriminate Hans).
  destruct (run h (F (a, b)) w1) as [[tr1 out1] w2] eqn:HF.
  injection H as <- <- <-. simpl in Hans. eauto 7.
Qed.

Lemma step_format {A} v (F : string -> prog A) w tr out w' :
  run h (bind (format_value v) F) w = (tr, out, w') ->
  all_answered tr = true ->
  exists s w1 tr1,
    tr = (Format v, RVal (VStr s)) :: tr1 /\
    run h (F s) w1 = (tr1, out, w') /\ all_answered tr1 = true.
Proof.
  cbn -[builtin]. intros H Hans.
  destruct (match builtin (Format v) with
            | Some r => (r, w) | None => h w (Format v) end)
    as [[[ | | | | s | | | | | | ] | e] w1]; simpl in H;
    try (injection H as <- _ _; simpl in Hans; discriminate Hans).
  destruct (run h (F s) w1) as [[tr1 out1] w2] eqn:HF.
  injection H as <- <- <-. simpl in Hans. eauto 6.
Qed.

Lemma run_bind {A B} (p : prog A) (F : A -> prog B) w :
  run h (bind p F) w =
  match run h p w with
  | (tr0, Done a, w1) =>
      let '(tr1, out, w2) := run h (F a) w1 in ((tr0 ++ tr1), out, w2)
  | (tr0, Raised e, w1) => (tr0, Raised e, w1)
  end.
Proof.
  revert w. induction p as [a | e | ev k IH]; intros w; simpl.
  - destruct (run h (F a) w) as [[tr1 out] w2]. reflexivity.
  - reflexivity.
  - destruct (match builtin ev with Some r => (r, w) | None => h w ev end) as [r w1].
    rewrite IH. destruct (run h (k r) w1) as [[tr0 [a | e]] w2].
    + destruct (run h (F a) w2) as [[tr1 out] w3]. reflexivity.
    + reflexivity.
Qed.

Lemma run_bind_assoc {A B C} (p : prog A) (F : A -> prog B) (G : B -> prog C) w :
  run h (bind (bind p F) G) w = run h (bind p (fun a => bind (F a) G)) w.
Proof.
  revert w. induction p as [a | e | ev k IH]; intros w; simpl; try reflexivity.
  destruct (match builtin ev with Some r => (r, w) | None => h w ev end) as [r w1].
  rewrite IH. reflexivity.
Qed.

(** A sub-program that returns whenever its operations all give results. *)
Lemma step_prog {A B} (p : prog A) (F : A -> prog B) w tr out w' :
  (forall w tr out w', run h p w = (tr, out, w') ->
     all_answered tr = true -> exists a, out = Done a) ->
  run h (bind p F) w = (tr, out, w') ->
  all_answered tr = true ->
  exists tr0 a w1 tr1,
    run h p w = (tr0, Done a, w1) /\ all_answered tr0 = true /\
    tr = (tr0 ++ tr1) /\
    run h (F a) w1 = (tr1, out, w') /\ all_answered tr1 = true.
Proof.
  intros Hp H Hans. rewrite run_bind in H.
  destruct (run h p w) as [[tr0 out0] w1] eqn:Hrun.
  destruct out0 as [a | e].
  - destruct (run h (F a) w1) as [[tr1 out1] w2] eqn:HF.
    injection H as <- <- <-. unfold all_answered in Hans.
    rewrite forallb_app in Hans. apply andb_true_iff in Hans as [H0 H1].
    exists tr0, a, w1, tr1. auto.
  - injection H as <- <- <-.
    destruct (Hp _ _ _ _ Hrun Hans) as [a Ha]. discriminate.
Qed.

End Steps.

Lemma before_nth {A} (l : list A) (i d : nat) (x y : A) :
  nth_error l i = Some x -> nth_error l (i + S d) = Some y -> before x y l.
Proof.
  revert l. induction i as [|i IH]; intros [|z l] Hx Hy; try discriminate.
  - injection Hx as ->. apply before_here. eapply nth_error_In. exact Hy.
  - apply before_later. apply IH; assumption.
Qed.

Lemma after_nth {A} (l : list A) (i : nat) (x : A) :
  nth_error l i = Some x -> after x (skipn (S i) l) l.
Proof.
  revert l. induction i as [|i IH]; intros [|z l] Hx; try discriminate.
  - injection Hx as ->. apply after_here.
  - apply after_later. apply IH. exact Hx.
Qed.

(** Entries and stretches of a trace stay where they are when the trace is
    known only from some point on. *)
Lemma in_app_front {A} (front rest : list A) x :
  In x front -> In x (front ++ rest).
Proof. intros H. apply in_or_app. left. exact H. Qed.

Lemma in_app_tail {A} (front mid tail : list A) x :
  In x tail -> In x (front ++ mid ++ tail).
Proof. intros H. apply in_or_app. right. apply in_or_app. right. exact H. Qed.

Lemma after_app {A} (pre l : list A) x post :
  after x post l -> after x post (pre ++ l).
Proof.
  intros H. induction pre as [|z pre IH]; simpl; [exact H | ].
  apply after_later. exact IH.
Qed.

Lemma after_app_tail {A} (front mid tail : list A) x post :
  after x post tail -> after x post (front ++ mid ++ tail).
Proof. intros H. apply after_app, after_app. exact H. Qed.

Lemma printed_app tr1 tr2 : printed (tr1 ++ tr2) = (printed tr1 ++ printed tr2).
Proof.
  induction tr1 as [|[ev r] tr1 IH]; simpl; [reflexivity | ].
  destruct ev; simpl; rewrite ?IH; reflexivity.
Qed.

Lemma assignments_app tr1 tr2 :
  assignments (tr1 ++ tr2) = (assignments tr1 ++ assignments tr2).
Proof.
  induction tr1 as [|[ev r] tr1 IH]; simpl; [reflexivity | ].
  destruct ev; simpl; rewrite ?IH; reflexivity.
Qed.

Arguments float_lit : simpl never.
Arguments String.append : simpl never.

(** One step of a run held in [H], all of whose operations give results
    ([Hans]): the next operation, its result, and the rest of the run. *)
Ltac step H Hans :=
  let v := fresh "v" in
  let w := fresh "w" in
  let tr := fresh "tr" in
  let E := fresh "E" in
  let H' := fresh "H" in
  let Hans' := fresh "Hans" in
  lazymatch type of H with
  | run _ (bind (truth _) _) _ = _ =>
      destruct (step_truth _ _ _ _ _ _ _ H Hans) as (v & w & tr & E & H' & Hans')
  | run _ (bind (unpack2 _) _) _ = _ =>
      let v' := fresh "v" in
      destruct (step_unpack2 _ _ _ _ _ _ _ H Hans)
        as (v & v' & w & tr & E & H' & Hans')
  | run _ (bind (format_value _) _) _ = _ =>
      destruct (step_format _ _ _ _ _ _ _ H Hans) as (v & w & tr & E & H' & Hans')
  | run _ (bind ?p _) _ = _ =>
      let p' := eval cbv beta delta [getattr setattr setitem call subscript py_eq
                                     print import_name import_from] in p in
      lazymatch p' with
      | perform ?ev =>
          let b := eval cbn in (builtin ev) in
          lazymatch b with
          | Some (RVal ?v0) =>
              destruct (step_builtin _ ev v0 _ _ _ _ _ eq_refl H Hans)
                as (tr & E & H' & Hans')
          | _ =>
              destruct (step_perform _ _ _ _ _ _ _ H Hans)
                as (v & w & tr & E & H' & Hans')
          end
      end
  end;
  clear H Hans; rename H' into H; rename Hans' into Hans; cbv beta iota in H.

(** At the end of the run the equations of the steps give the trace. *)
Ltac finish H :=
  apply step_ret in H; destruct H as [? ?]; subst.

(** Looking entries up in a trace that is known, possibly but for one
    stretch [mid] of it. *)
Ltac front_of l :=
  lazymatch l with
  | ?a :: ?l' => let f := front_of l' in constr:(a :: f)
  | _ ++ _ => constr:(@nil (event * resp))
  end.
Ltac pick_nth x l n :=
  lazymatch l with
  | ?a :: ?l' =>
      (unify a x; refine (nth_error_In _ n _); reflexivity) + pick_nth x l' (S n)
  end.
Ltac pick_after x l n :=
  lazymatch l with
  | ?a :: ?l' =>
      (unify a x; refine (after_nth _ n _ _); reflexivity) + pick_after x l' (S n)
  end.
Ltac pick_later y l i d :=
  lazymatch l with
  | ?a :: ?l' =>
      (unify a y; refine (before_nth _ i d _ _ _ _); reflexivity)
      + pick_later y l' i (S d)
  end.
Ltac pick_before x y l i :=
  lazymatch l with
  | ?a :: ?l' => (unify a x; pick_later y l' i 0%nat) + pick_before x y l' (S i)
  end.
Ltac found :=
  multimatch goal with
  | |- _ = _ => reflexivity
  | |- In ?x ?l =>
      let l' := eval cbv [skipn] in l in
      lazymatch l' with
      | context [?mid ++ ?tail] =>
          let front := front_of l' in
          (refine (in_app_front front (mid ++ tail) x _); pick_nth x front 0%nat)
          + (refine (in_app_tail front mid tail x _); pick_nth x tail 0%nat)
      | _ => pick_nth x l' 0%nat
      end
  | |- after ?x ?post ?l =>
      let l' := eval cbv [skipn] in l in
      lazymatch l' with
      | context [?mid ++ ?tail] =>
          let front := front_of l' in
          refine (after_app_tail front mid tail x post _); pick_after x tail 0%nat
      | _ => pick_after x l' 0%nat
      end
  | |- before ?x ?y ?l =>
      let l' := eval cbv [skipn] in l in pick_before x y l' 0%nat
  | |- forall _, _ => idtac
  end.
Ltac trace_facts :=
  unfold made_by, marker_of, attr_of, item_of, tested_equal;
  repeat match goal with
         | |- exists _, _ => eexists
         | |- _ /\ _ => split
         end;
  found.

(** ** The problem builder *)

Section Builder.
Context {world : Type} (h : world -> event -> resp * world).
Variables dolfin dolfin_adjoint pulse : val.

Lemma item_of_pair {A} (p : prog A) w tr out w' i d id :
  run h p w = (tr, out, w') ->
  item_of tr (VTuple [i; d]) (VInt 0) id -> id = i.
Proof.
  intros H Hin.
  assert (E : RVal id = RVal i) by (eapply (run_builtin h p); eauto).
  injection E as ->. reflexivity.
Qed.

(** C3. In every run of [create_problem] in which each operation gives a
    result, it returns a pair [(problem, control)]; the problem is built
    from boundary conditions that hold exactly one Dirichlet entry (the
    closure [fix_basal_plane] over the geometry), exactly one Neumann entry
    (the pressure load, with the id of the ENDO marker) and exactly one
    Robin entry (the spring, with the id of the BASE marker); and
    [matparams["a"] = control] is done before the material is built from
    [matparams]. *)
Theorem create_problem_boundary_conditions (w : world) :
  let tr := trace_of h (Demo.create_problem dolfin dolfin_adjoint pulse) w in
  let out := outcome_of h (Demo.create_problem dolfin dolfin_adjoint pulse) w in
  all_answered tr = true ->
  exists problem control,
    out = Done (problem, control) /\
  exists geometry material bcs lv_pressure robin
         lvp spring endo endo_id base base_id
         HolzapfelOgden activation matparams f0 s0 n0 r,
    made_by tr pulse "MechanicsProblem" [geometry; material; bcs] [] problem /\
    made_by tr pulse "BoundaryConditions" []
      [("dirichlet", VList [VClosure "fix_basal_plane" [geometry]]);
       ("neumann", VList [lv_pressure]);
       ("robin", VList [robin])] bcs /\
    made_by tr pulse "NeumannBC" []
      [("traction", lvp); ("marker", endo_id); ("name", VStr "lv")] lv_pressure /\
    marker_of tr geometry "ENDO" endo endo_id /\
    (forall i d, endo = VTuple [i; d] -> endo_id = i) /\
    made_by tr pulse "RobinBC" [] [("value", spring); ("marker", base_id)] robin /\
    marker_of tr geometry "BASE" base base_id /\
    (forall i d, base = VTuple [i; d] -> base_id = i) /\
    attr_of tr pulse "HolzapfelOgden" HolzapfelOgden /\
    before (SetItem matparams (VStr "a") control, r)
           (Call HolzapfelOgden []
              [("activation", activation); ("parameters", matparams);
               ("f0", f0); ("s0", s0); ("n0", n0)], RVal material) tr.
Proof.
  intros tr out Hans.
  pose proof (run_eta h _ w : run h _ w = (tr, out, _)) as Hrun.
  clearbody tr out. pose proof Hrun as H. unfold Demo.create_problem in H.
  repeat step H Hans. finish H.
  trace_facts.
  all: intros i d ->; eapply item_of_pair; [exact Hrun | trace_facts].
Qed.

(** C10. In every run of [create_problem] in which each operation gives a
    result, the control it returns is a [Function] on
    [FunctionSpace(mesh, "R", 0)] that is assigned [Constant(1.0)] and then
    stored as [matparams["a"]]; the activation is a [Function] on a space
    made the same way and is assigned [Constant(0.0)]; and the material of
    the returned problem is built, after all that, from this activation and
    these parameters. *)
Theorem create_problem_initial_guess (w : world) :
  let tr := trace_of h (Demo.create_problem dolfin dolfin_adjoint pulse) w in
  let out := outcome_of h (Demo.create_problem dolfin dolfin_adjoint pulse) w in
  all_answered tr = true ->
  exists problem control,
    out = Done (problem, control) /\
  exists geometry material bcs
         HolzapfelOgden activation matparams f0 s0 n0
         mesh V one assign r1 r mesh' R zero assign' r0 HolzapfelOgden',
    made_by tr pulse "MechanicsProblem" [geometry; material; bcs] [] problem /\
    attr_of tr pulse "HolzapfelOgden" HolzapfelOgden /\
    In (Call HolzapfelOgden []
          [("activation", activation); ("parameters", matparams);
           ("f0", f0); ("s0", s0); ("n0", n0)], RVal material) tr /\
    (* the control *)
    made_by tr dolfin_adjoint "Function" [V] [] control /\
    made_by tr dolfin "FunctionSpace" [mesh; VStr "R"; VInt 0] [] V /\
    attr_of tr geometry "mesh" mesh /\
    made_by tr dolfin_adjoint "Constant" [VFloat (float_lit 10 1)] [] one /\
    attr_of tr control "assign" assign /\
    before (Call assign [one] [], RVal r1)
           (SetItem matparams (VStr "a") control, r) tr /\
    before (SetItem matparams (VStr "a") control, r)
           (Call HolzapfelOgden []
              [("activation", activation); ("parameters", matparams);
               ("f0", f0); ("s0", s0); ("n0", n0)], RVal material) tr /\
    (* the activation *)
    made_by tr dolfin_adjoint "Function" [R] [("name", VStr "activation")] activation /\
    made_by tr dolfin "FunctionSpace" [mesh'; VStr "R"; VInt 0] [] R /\
    attr_of tr geometry "mesh" mesh' /\
    made_by tr dolfin_adjoint "Constant" [VFloat (float_lit 0 1)] [] zero /\
    attr_of tr activation "assign" assign' /\
    before (Call assign' [zero] [], RVal r0)
           (Call HolzapfelOgden []
              [("activation", activation); ("parameters", matparams);
               ("f0", f0); ("s0", s0); ("n0", n0)], RVal material) tr /\
    (* the parameter set *)
    attr_of tr pulse "HolzapfelOgden" HolzapfelOgden' /\
    made_by tr HolzapfelOgden' "default_parameters" [] [] matparams.
Proof.
  intros tr out Hans.
  pose proof (run_eta h _ w : run h _ w = (tr, out, _)) as H.
  clearbody tr out. unfold Demo.create_problem in H.
  repeat step H Hans. finish H.
  trace_facts.
Qed.

(** What the scripts' properties need to know about the builder. *)
Lemma create_problem_returns (w : world) (tr : trace)
    (out : outcome (val * val)) (w' : world) :
  run h (Demo.create_problem dolfin dolfin_adjoint pulse) w = (tr, out, w') ->
  all_answered tr = true ->
  exists problem control matparams,
    out = Done (problem, control) /\
    printed tr = [] /\
    assignments tr = [SetItem matparams (VStr "a") control].
Proof.
  intros H Hans. unfold Demo.create_problem in H.
  repeat step H Hans. finish H.
  do 3 eexists. repeat split.
Qed.

Lemma create_problem_done (w : world) (tr : trace)
    (out : outcome (val * val)) (w' : world) :
  run h (Demo.create_problem dolfin dolfin_adjoint pulse) w = (tr, out, w') ->
  all_answered tr = true ->
  exists a, out = Done a.
Proof.
  intros H Hans.
  destruct (create_problem_returns _ _ _ _ H Hans) as (p & c & _ & -> & _).
  eauto.
Qed.

End Builder.

Lemma create_problem_boundary_conditions_witness :
  let h := Stack.handler Stack.ellipsoid in
  let p := Demo.create_problem (VRef 1001) (VRef 1003) (VRef 1005) in
  all_answered (trace_of h p []) = true /\
  exists problem control, outcome_of h p [] = Done (problem, control).
Proof.
  intros h p.
  assert (Hans : all_answered (trace_of h p []) = true) by (vm_compute; reflexivity).
  split; [exact Hans | ].
  destruct (create_problem_boundary_conditions h (VRef 1001) (VRef 1003) (VRef 1005) [] Hans)
    as (problem & control & Hout & _).
  exists problem, control. exact Hout.
Defined.

Lemma create_problem_initial_guess_witness :
  let h := Stack.handler Stack.ellipsoid in
  let p := Demo.create_problem (VRef 1001) (VRef 1003) (VRef 1005) in
  all_answered (trace_of h p []) = true /\
  exists problem control, outcome_of h p [] = Done (problem, control).
Proof.
  intros h p.
  assert (Hans : all_answered (trace_of h p []) = true) by (vm_compute; reflexivity).
  split; [exact Hans | ].
  destruct (create_problem_initial_guess h (VRef 1001) (VRef 1003) (VRef 1005) [] Hans)
    as (problem & control & Hout & _).
  exists problem, control. exact Hout.
Defined.

(** ** The Dirichlet closure *)

Section Closure.
Context {world : Type} (h : world -> event -> resp * world).
Variables dolfin dolfin_adjoint geometry W : val.

Lemma tested_equal_int {A} (p : prog A) w tr out w' m n t :
  run h p w = (tr, out, w') ->
  tested_equal tr (VInt m) (VInt n) t -> t = (m =? n)%Z.
Proof.
  intros H (c & Hc & Ht).
  assert (E : RVal c = RVal (VBool (m =? n)%Z))
    by (eapply (run_builtin h p); eauto).
  injection E as ->.
  assert (E : RVal (VBool t) = RVal (VBool (m =? n)%Z))
    by (eapply (run_builtin h p); eauto).
  injection E as ->. reflexivity.
Qed.

(** C9. In every run of [fix_basal_plane(W)] in which each operation gives
    a result, the closure returns the [DirichletBC] it made on [V.sub(0)]
    with the constant 0.0, the facet function of the geometry and the id of
    the BASE marker, where [V] is [W] itself when the test
    [W.sub(0).num_sub_spaces() == 0] holds and [W.sub(0)] otherwise; when
    [num_sub_spaces()] gives an int the test holds exactly when that int
    is 0. *)
Theorem fix_basal_plane_fixes_base (w : world) :
  let tr := trace_of h (Demo.fix_basal_plane dolfin dolfin_adjoint geometry W) w in
  let out := outcome_of h (Demo.fix_basal_plane dolfin dolfin_adjoint geometry W) w in
  all_answered tr = true ->
  exists bc,
    out = Done bc /\
  exists V V0 zero ffun base marker W0 n t,
    made_by tr dolfin_adjoint "DirichletBC" [V0; zero; ffun; marker] [] bc /\
    made_by tr V "sub" [VInt 0] [] V0 /\
    made_by tr dolfin "Constant" [VFloat (float_lit 0 1)]
      [("name", VStr "fix_base")] zero /\
    attr_of tr geometry "ffun" ffun /\
    marker_of tr geometry "BASE" base marker /\
    made_by tr W "sub" [VInt 0] [] W0 /\
    made_by tr W0 "num_sub_spaces" [] [] n /\
    tested_equal tr n (VInt 0) t /\
    (if t then V = W else made_by tr W "sub" [VInt 0] [] V) /\
    (forall i d, base = VTuple [i; d] -> marker = i) /\
    (forall k, n = VInt k -> t = (k =? 0)%Z).
Proof.
  intros tr out Hans.
  pose proof (run_eta h _ w : run h _ w = (tr, out, _)) as Hrun.
  clearbody tr out. pose proof Hrun as H. unfold Demo.fix_basal_plane in H.
  repeat step H Hans.
  match goal with t : bool |- _ => destruct t end;
    [ cbn [bind] in H | rewrite run_bind_assoc in H ];
    repeat step H Hans; finish H.
  all: eexists; split; [reflexivity | ].
  - do 8 eexists. exists true. trace_facts.
    + intros i d ->. eapply item_of_pair; [exact Hrun | trace_facts].
    + intros k ->. eapply tested_equal_int; [exact Hrun | trace_facts].
  - do 8 eexists. exists false. trace_facts.
    + intros i d ->. eapply item_of_pair; [exact Hrun | trace_facts].
    + intros k ->. eapply tested_equal_int; [exact Hrun | trace_facts].
Qed.

End Closure.

Lemma fix_basal_plane_fixes_base_witness :
  let h := Stack.handler Stack.ellipsoid in
  let p := Demo.fix_basal_plane (VRef 1001) (VRef 1003) (VRef 1005) (VRef 1007) in
  all_answered (trace_of h p []) = true /\
  exists bc, outcome_of h p [] = Done bc.
Proof.
  intros h p.
  assert (Hans : all_answered (trace_of h p []) = true) by (vm_compute; reflexivity).
  split; [exact Hans | ].
  destruct (fix_basal_plane_fixes_base h (VRef 1001) (VRef 1003) (VRef 1005) (VRef 1007) [] Hans)
    as (bc & Hout & _).
  exists bc. exact Hout.
Defined.

(** ** The scripts *)

Section AllEvents.
Context {world : Type} (h : world -> event -> resp * world).
Variable P : event -> Prop.

Lemma all_events_bind {A B} (p : prog A) (f : A -> prog B) :
  all_events P p -> (forall a, all_events P (f a)) -> all_events P (bind p f).
Proof.
  intros Hp Hf. induction Hp as [a | e | ev k Hev Hk IH]; simpl.
  - apply Hf.
  - constructor.
  - constructor; [exact Hev | intros r; apply IH].
Qed.

Lemma all_events_perform ev : P ev -> all_events P (perform ev).
Proof. intros H. constructor; [exact H | intros [v | e]; constructor]. Qed.

Lemma all_events_unpack2 v : P (Unpack v 2) -> all_events P (unpack2 v).
Proof.
  intros H. constructor; [exact H | ].
  intros [[ | | | | | l | | | | | ] | e]; try constructor.
  destruct l as [|a [|b [|c l]]]; constructor.
Qed.

Lemma all_events_run {A} (p : prog A) :
  all_events P p ->
  forall w tr out w', run h p w = (tr, out, w') -> Forall (fun e => P (fst e)) tr.
Proof.
  induction 1 as [a | e | ev k Hev Hk IH]; intros w tr out w' Hrun.
  - injection Hrun as <- _ _. constructor.
  - injection Hrun as <- _ _. constructor.
  - cbn -[builtin] in Hrun.
    destruct (match builtin ev with Some r => (r, w) | None => h w ev end) as [r w1].
    destruct (run h (k r) w1) as [[tr1 out1] w2] eqn:Hk1.
    injection Hrun as <- <- <-. constructor; [exact Hev | eapply IH; eauto].
Qed.

End AllEvents.



(** Steps of a script that calls [create_problem]. *)
Ltac step_script H Hans :=
  lazymatch type of H with
  | run ?h (bind (Demo.create_problem ?d ?da ?p) _) _ = _ =>
      let tr0 := fresh "tr" in
      let problem := fresh "problem" in
      let control := fresh "control" in
      let w := fresh "w" in
      let tr := fresh "tr" in
      let E := fresh "E" in
      let H' := fresh "H" in
      let Hans' := fresh "Hans" in
      let Hcp := fresh "Hcp" in
      let Hcpans := fresh "Hcpans" in
      destruct (step_prog h _ _ _ _ _ _ (create_problem_done h d da p) H Hans)
        as (tr0 & [problem control] & w & tr & Hcp & Hcpans & E & H' & Hans');
      destruct (create_problem_returns h d da p _ _ _ _ Hcp Hcpans)
        as (? & ? & ? & [= <- <-] & ? & ?);
      clear H Hans Hcp Hcpans; rename H' into H; rename Hans' into Hans;
      cbv beta iota in H
  | _ => step H Hans
  end.

(** The prints and assignments of a trace known but for the builder's
    stretch, of which [printed] and [assignments] are known. *)
Ltac trace_eq :=
  cbn [printed assignments calls];
  rewrite ?printed_app, ?assignments_app;
  repeat match goal with
         | Hp : printed _ = _ |- _ => rewrite Hp; clear Hp
         | Ha : assignments _ = _ |- _ => rewrite Ha; clear Ha
         end;
  reflexivity.

Section Scripts.
Context {world : Type} (h : world -> event -> resp * world).

(** C6 (amended). In every run of demo.py in which each operation gives a
    result, exactly three lines are printed, in this order: "Target volume: "
    with the formatted 2.8, "Model volume: " with the formatted result of
    [cavity_volume(u=u)], and "Estimated material parameters " with the
    formatted [optimal_control.optimal_control] of what [assimilate()]
    returned. *)
Theorem demo_prints_three_lines (w : world) :
  let tr := trace_of h Demo.script w in
  all_answered tr = true ->
  exists s1 s2 s3 geometry u volume assimilator optimal_control post value,
    printed tr =
      [[VStr ("Target volume: " ++ s1)%string];
       [VStr ("Model volume: " ++ s2)%string];
       [VStr ("Estimated material parameters " ++ s3)%string]] /\
    In (Format (VFloat (float_lit 28 1)), RVal (VStr s1)) tr /\
    made_by tr geometry "cavity_volume" [] [("u", u)] volume /\
    In (Format volume, RVal (VStr s2)) tr /\
    assimilate_returned tr assimilator optimal_control post /\
    attr_of post optimal_control "optimal_control" value /\
    In (Format value, RVal (VStr s3)) post.
Proof.
  intros tr Hans.
  pose proof (run_eta h _ w : run h _ w = (tr, _, _)) as H.
  clearbody tr. unfold Demo.script, Demo.main in H.
  repeat step_script H Hans. finish H.
  do 10 eexists. split; [trace_eq | ].
  unfold assimilate_returned. trace_facts.
Qed.

(** C2 (amended). In every run of demo.py in which each operation gives a
    result, after [assimilate()] returns the driver assigns
    [dolfin.Constant(optimal_control.optimal_control)] to
    [problem.material.a], then calls [problem.solve()], and prints only
    after that; [problem] is the object it handed to the [Assimilator].
    After [assimilate()] it assigns no attribute and no item, and its calls
    are exactly: [Constant], [assign], [solve], [dolfin.split] and
    [geometry.cavity_volume]. *)
Theorem demo_reassigns_and_resolves (w : world) :
  let tr := trace_of h Demo.script w in
  all_answered tr = true ->
  exists dolfin pulse_adjoint problem control targets pressure_obs
         assimilator optimal_control post,
    In (ImportName "dolfin", RVal dolfin) tr /\
    In (ImportName "pulse_adjoint", RVal pulse_adjoint) tr /\
    made_by tr pulse_adjoint "Assimilator" [problem]
      [("targets", targets); ("bcs", pressure_obs); ("control", control)]
      assimilator /\
    assimilate_returned tr assimilator optimal_control post /\
    reassigned_and_resolved post problem optimal_control /\
    assignments post = [] /\
    exists Constant value c material a assign solve split state
           geometry cavity_volume u,
      calls post =
        [Call Constant [value] []; Call assign [c] []; Call solve [] [];
         Call split [state] []; Call cavity_volume [] [("u", u)]] /\
      attr_of post dolfin "Constant" Constant /\
      attr_of post optimal_control "optimal_control" value /\
      attr_of post problem "material" material /\
      attr_of post material "a" a /\
      attr_of post a "assign" assign /\
      attr_of post problem "solve" solve /\
      attr_of post dolfin "split" split /\
      attr_of post problem "state" state /\
      attr_of post problem "geometry" geometry /\
      attr_of post geometry "cavity_volume" cavity_volume.
Proof.
  intros tr Hans.
  pose proof (run_eta h _ w : run h _ w = (tr, _, _)) as H.
  clearbody tr. unfold Demo.script, Demo.main in H.
  repeat step_script H Hans. finish H.
  unfold assimilate_returned, reassigned_and_resolved. trace_facts.
Qed.

End Scripts.

(** ** The scripts on the simple ellipsoid *)

(** A trace of the stand-in stack, computed. *)
Tactic Notation "compute_trace" constr(x) :=
  let t := eval vm_compute in x in
  let E := fresh "E" in
  assert (E : x = t) by (vm_compute; reflexivity);
  rewrite E; clear E.

Lemma demo_prints_three_lines_witness :
  all_answered ellipsoid_demo = true /\
  printed ellipsoid_demo =
    [[VStr "Target volume: 2.8"]; [VStr "Model volume: <object>"];
     [VStr "Estimated material parameters <object>"]].
Proof.
  assert (Hans : all_answered ellipsoid_demo = true) by (vm_compute; reflexivity).
  split; [exact Hans | ].
  destruct (demo_prints_three_lines (Stack.handler Stack.ellipsoid) [] Hans)
    as (s1 & s2 & s3 & _).
  vm_compute. reflexivity.
Defined.

Lemma demo_reassigns_and_resolves_witness :
  all_answered ellipsoid_demo = true /\
  exists problem optimal_control post,
    reassigned_and_resolved post problem optimal_control.
Proof.
  assert (Hans : all_answered ellipsoid_demo = true) by (vm_compute; reflexivity).
  split; [exact Hans | ].
  destruct (demo_reassigns_and_resolves (Stack.handler Stack.ellipsoid) [] Hans)
    as (_ & _ & problem & _ & _ & _ & _ & optimal_control & post
        & _ & _ & _ & _ & Hres & _).
  exists problem, optimal_control, post. exact Hres.
Defined.

(** C2, as stated, fails on the test driver: on the simple ellipsoid
    [assimilate()] returns, and nothing that follows reassigns the material
    parameter or solves the problem again. *)
Lemma test_driver_does_not_resolve :
  exists assimilator result post,
    assimilate_returned ellipsoid_test assimilator result post /\
    forall problem, ~ reassigned_and_resolved post problem result.
Proof.
  compute_trace ellipsoid_test. unfold assimilate_returned. trace_facts.
  intros problem (material & a & assign & value & C & c & r & solve & r' & post'
                  & Hm & _).
  unfold attr_of in Hm. cbn [skipn In] in Hm.
  repeat destruct Hm as [Hm | Hm]; try discriminate Hm. exact Hm.
Qed.


(** C6, as stated, fails on the test script: on the simple ellipsoid it
    prints one line, the model volume, not three. *)
Lemma test_prints_one_line :
  printed ellipsoid_test = [[VRef 52]] /\
  List.length (printed ellipsoid_test) <> 3%nat.
Proof. split; [vm_compute; reflexivity | vm_compute; discriminate]. Qed.

(** C4. On the simple ellipsoid, whose marker table maps "ENDO" to the pair
    (30, 2), the test script hands the whole pair to [geo.ds], where demo.py
    hands it the id 30 taken with [[0]]. *)
Theorem test_observation_gets_marker_pair :
  (exists geo markers ds dmu,
     attr_of ellipsoid_test geo "markers" markers /\
     item_of ellipsoid_test markers (VStr "ENDO") (VTuple [VInt 30; VInt 2]) /\
     attr_of ellipsoid_test geo "ds" ds /\
     In (Call ds [VTuple [VInt 30; VInt 2]] [], RVal dmu) ellipsoid_test) /\
  (exists geometry geometry' ds dmu,
     marker_of ellipsoid_demo geometry "ENDO" (VTuple [VInt 30; VInt 2]) (VInt 30) /\
     attr_of ellipsoid_demo geometry' "ds" ds /\
     In (Call ds [VInt 30] [], RVal dmu) ellipsoid_demo).
Proof.
  compute_trace ellipsoid_test. compute_trace ellipsoid_demo.
  split; trace_facts.
Qed.

(** ** Failures *)

(** C7. Whatever fails during a run of either script (a missing mesh file,
    a solve that does not converge, a failing optimizer: any operation that
    ends in an exception), that operation is the last the script performs
    and the script ends with that very exception.  The same holds for the
    closure [fix_basal_plane] that the stack calls back. *)
Theorem failures_propagate {world : Type} (h : world -> event -> resp * world)
    (p : prog val) (w : world) (i : nat) (ev : event) (e : val) :
  repo_code p ->
  nth_error (trace_of h p w) i = Some (ev, RExc e) ->
  S i = List.length (trace_of h p w) /\ outcome_of h p w = Raised e.
Proof.
  intros Hp Hi.
  eapply (no_handler_run h p (repo_code_no_handler p Hp)); [apply run_eta | exact Hi].
Qed.

Lemma failures_propagate_witness :
  let h := Stack.handler Stack.missing_mesh in
  nth_error (trace_of h Demo.script []) 10 =
    Some (Call (VRef 14) [VRef 18] [], RExc (VExc "RuntimeError")) /\
  11%nat = List.length (trace_of h Demo.script []) /\
  outcome_of h Demo.script [] = Raised (VExc "RuntimeError").
Proof.
  intros h.
  assert (Hi : nth_error (trace_of h Demo.script []) 10 =
               Some (Call (VRef 14) [VRef 18] [], RExc (VExc "RuntimeError")))
    by (vm_compute; reflexivity).
  split; [exact Hi | ].
  exact (failures_propagate h Demo.script [] 10%nat _ _ code_demo Hi).
Defined.

(** The closure on a mixed space: with three sub-spaces under [W.sub(0)]
    the condition is applied to a sub-space of [W.sub(0)]. *)
Example fix_basal_plane_mixed :
  let h := Stack.handler Stack.mixed in
  calls (trace_of h (Demo.fix_basal_plane (VRef 1001) (VRef 1003) (VRef 1005)
                      (VRef 1007)) []) =
    [Call (VRef 0) [VInt 0] []; Call (VRef 4) [] [];
     Call (VRef 8) [VInt 0] []; Call (VRef 14) [VInt 0] [];
     Call (VRef 18) [VFloat (float_lit 0 1)] [("name", VStr "fix_base")];
     Call (VRef 12) [VRef 16; VRef 20; VRef 22; VInt 10] []].
Proof. vm_compute. reflexivity. Qed.

(** * Further properties *)

Section MoreSteps.
Context {world : Type} (h : world -> event -> resp * world).

(** A step inside a sub-program written in line. *)
Lemma step_perform_in {A B} ev (G : val -> prog A) (F : A -> prog B) w tr out w' :
  run h (bind (bind (perform ev) G) F) w = (tr, out, w') ->
  all_answered tr = true ->
  exists v w1 tr1,
    tr = (ev, RVal v) :: tr1 /\
    run h (bind (G v) F) w1 = (tr1, out, w') /\ all_answered tr1 = true.
Proof.
  intros H Hans. rewrite run_bind_assoc in H.
  exact (step_perform h ev (fun a => bind (G a) F) w tr out w' H Hans).
Qed.

(** Steps of a run about which nothing is assumed: the operation ends the
    run, or gives a result and the run goes on. *)
Lemma any_perform {A} ev (F : val -> prog A) w tr out w' :
  run h (bind (perform ev) F) w = (tr, out, w') ->
  (exists e, tr = [(ev, RExc e)]) \/
  (exists v w1 tr1,
     tr = (ev, RVal v) :: tr1 /\ run h (F v) w1 = (tr1, out, w')).
Proof.
  cbn -[builtin]. intros H.
  destruct (match builtin ev with Some r => (r, w) | None => h w ev end)
    as [[v | e] w1]; simpl in H.
  - destruct (run h (F v) w1) as [[tr1 out1] w2] eqn:HF.
    injection H as <- <- <-. right. eauto.
  - injection H as <- _ _. left. eauto.
Qed.

Lemma any_perform_in {A B} ev (G : val -> prog A) (F : A -> prog B) w tr out w' :
  run h (bind (bind (perform ev) G) F) w = (tr, out, w') ->
  (exists e, tr = [(ev, RExc e)]) \/
  (exists v w1 tr1,
     tr = (ev, RVal v) :: tr1 /\ run h (bind (G v) F) w1 = (tr1, out, w')).
Proof.
  intros H. rewrite run_bind_assoc in H.
  exact (any_perform ev (fun a => bind (G a) F) w tr out w' H).
Qed.

Lemma any_builtin {A} ev v0 (F : val -> prog A) w tr out w' :
  builtin ev = Some (RVal v0) ->
  run h (bind (perform ev) F) w = (tr, out, w') ->
  exists tr1, tr = (ev, RVal v0) :: tr1 /\ run h (F v0) w = (tr1, out, w').
Proof.
  cbn -[builtin]. intros -> H. simpl in H.
  destruct (run h (F v0) w) as [[tr1 out1] w2] eqn:HF.
  injection H as <- <- <-. eauto.
Qed.

Lemma any_unpack2 {A} v (F : val * val -> prog A) w tr out w' :
  run h (bind (unpack2 v) F) w = (tr, out, w') ->
  (exists r, tr = [(Unpack v 2, r)]) \/
  (exists a b w1 tr1,
     tr = (Unpack v 2, RVal (VTuple [a; b])) :: tr1 /\
     run h (F (a, b)) w1 = (tr1, out, w')).
Proof.
  cbn -[builtin]. intros H.
  destruct (match builtin (Unpack v 2) with
            | Some r => (r, w) | None => h w (Unpack v 2) end)
    as [[[ | | | | | l | | | | | ] | e] w1]; simpl in H;
    try (injection H as <- _ _; left; eauto; fail).
  destruct l as [|a [|b [|c l]]]; simpl in H;
    try (injection H as <- _ _; left; eauto; fail).
  destruct (run h (F (a, b)) w1) as [[tr1 out1] w2] eqn:HF.
  injection H as <- <- <-. right. eauto 6.
Qed.

Lemma any_format {A} v (F : string -> prog A) w tr out w' :
  run h (bind (format_value v) F) w = (tr, out, w') ->
  (exists r, tr = [(Format v, r)]) \/
  (exists s w1 tr1,
     tr = (Format v, RVal (VStr s)) :: tr1 /\ run h (F s) w1 = (tr1, out, w')).
Proof.
  cbn -[builtin]. intros H.
  destruct (match builtin (Format v) with
            | Some r => (r, w) | None => h w (Format v) end)
    as [[[ | | | | s | | | | | | ] | e] w1]; simpl in H;
    try (injection H as <- _ _; left; eauto; fail).
  destruct (run h (F s) w1) as [[tr1 out1] w2] eqn:HF.
  injection H as <- <- <-. right. eauto.
Qed.

(** The same steps as rules for a goal [Q] about the trace. *)
Lemma run_perform {A} (Q : trace -> Prop) ev (F : val -> prog A) w tr out w' :
  run h (bind (perform ev) F) w = (tr, out, w') ->
  all_answered tr = true ->
  (forall v w1 tr1,
     run h (F v) w1 = (tr1, out, w') -> all_answered tr1 = true ->
     Q ((ev, RVal v) :: tr1)) ->
  Q tr.
Proof.
  intros H Hans Hk.
  destruct (step_perform h _ _ _ _ _ _ H Hans) as (v & w1 & tr1 & -> & H' & Hans').
  exact (Hk _ _ _ H' Hans').
Qed.

Lemma run_perform_in {A B} (Q : trace -> Prop) ev (G : val -> prog A)
    (F : A -> prog B) w tr out w' :
  run h (bind (bind (perform ev) G) F) w = (tr, out, w') ->
  all_answered tr = true ->
  (forall v w1 tr1,
     run h (bind (G v) F) w1 = (tr1, out, w') -> all_answered tr1 = true ->
     Q ((ev, RVal v) :: tr1)) ->
  Q tr.
Proof.
  intros H Hans Hk.
  destruct (step_perform_in _ _ _ _ _ _ _ H Hans) as (v & w1 & tr1 & -> & H' & Hans').
  exact (Hk _ _ _ H' Hans').
Qed.

Lemma run_builtin_step {A} (Q : trace -> Prop) ev v0 (F : val -> prog A) w tr out w' :
  builtin ev = Some (RVal v0) ->
  run h (bind (perform ev) F) w = (tr, out, w') ->
  all_answered tr = true ->
  (forall tr1,
     run h (F v0) w = (tr1, out, w') -> all_answered tr1 = true ->
     Q ((ev, RVal v0) :: tr1)) ->
  Q tr.
Proof.
  intros Hb H Hans Hk.
  destruct (step_builtin h _ _ _ _ _ _ _ Hb H Hans) as (tr1 & -> & H' & Hans').
  exact (Hk _ H' Hans').
Qed.

Lemma run_truth {A} (Q : trace -> Prop) v (F : bool -> prog A) w tr out w' :
  run h (bind (truth v) F) w = (tr, out, w') ->
  all_answered tr = true ->
  (forall t w1 tr1,
     run h (F t) w1 = (tr1, out, w') -> all_answered tr1 = true ->
     Q ((Truth v, RVal (VBool t)) :: tr1)) ->
  Q tr.
Proof.
  intros H Hans Hk.
  destruct (step_truth h _ _ _ _ _ _ H Hans) as (t & w1 & tr1 & -> & H' & Hans').
  exact (Hk _ _ _ H' Hans').
Qed.

Lemma run_unpack2 {A} (Q : trace -> Prop) v (F : val * val -> prog A) w tr out w' :
  run h (bind (unpack2 v) F) w = (tr, out, w') ->
  all_answered tr = true ->
  (forall a b w1 tr1,
     run h (F (a, b)) w1 = (tr1, out, w') -> all_answered tr1 = true ->
     Q ((Unpack v 2, RVal (VTuple [a; b])) :: tr1)) ->
  Q tr.
Proof.
  intros H Hans Hk.
  destruct (step_unpack2 h _ _ _ _ _ _ H Hans)
    as (a & b & w1 & tr1 & -> & H' & Hans').
  exact (Hk _ _ _ _ H' Hans').
Qed.

Lemma run_format {A} (Q : trace -> Prop) v (F : string -> prog A) w tr out w' :
  run h (bind (format_value v) F) w = (tr, out, w') ->
  all_answered tr = true ->
  (forall s w1 tr1,
     run h (F s) w1 = (tr1, out, w') -> all_answered tr1 = true ->
     Q ((Format v, RVal (VStr s)) :: tr1)) ->
  Q tr.
Proof.
  intros H Hans Hk.
  destruct (step_format h _ _ _ _ _ _ H Hans) as (s & w1 & tr1 & -> & H' & Hans').
  exact (Hk _ _ _ H' Hans').
Qed.

Lemma run_ret {A} (Q : trace -> Prop) (a : A) w tr out w' :
  run h (Ret a) w = (tr, out, w') -> Q [] -> Q tr.
Proof. intros H HQ. apply step_ret in H as [-> _]. exact HQ. Qed.

Lemma any_perform_rule {A} (Q : trace -> Prop) ev (F : val -> prog A) w tr out w' :
  run h (bind (perform ev) F) w = (tr, out, w') ->
  (forall e, Q [(ev, RExc e)]) ->
  (forall v w1 tr1, run h (F v) w1 = (tr1, out, w') -> Q ((ev, RVal v) :: tr1)) ->
  Q tr.
Proof.
  intros H Hf Hk.
  destruct (any_perform _ _ _ _ _ _ H) as [(e & ->) | (v & w1 & tr1 & -> & H')];
    [apply Hf | exact (Hk _ _ _ H')].
Qed.

Lemma any_perform_in_rule {A B} (Q : trace -> Prop) ev (G : val -> prog A)
    (F : A -> prog B) w tr out w' :
  run h (bind (bind (perform ev) G) F) w = (tr, out, w') ->
  (forall e, Q [(ev, RExc e)]) ->
  (forall v w1 tr1,
     run h (bind (G v) F) w1 = (tr1, out, w') -> Q ((ev, RVal v) :: tr1)) ->
  Q tr.
Proof.
  intros H Hf Hk.
  destruct (any_perform_in _ _ _ _ _ _ _ H) as [(e & ->) | (v & w1 & tr1 & -> & H')];
    [apply Hf | exact (Hk _ _ _ H')].
Qed.

Lemma any_builtin_rule {A} (Q : trace -> Prop) ev v0 (F : val -> prog A) w tr out w' :
  builtin ev = Some (RVal v0) ->
  run h (bind (perform ev) F) w = (tr, out, w') ->
  (forall tr1, run h (F v0) w = (tr1, out, w') -> Q ((ev, RVal v0) :: tr1)) ->
  Q tr.
Proof.
  intros Hb H Hk.
  destruct (any_builtin _ _ _ _ _ _ _ Hb H) as (tr1 & -> & H').
  exact (Hk _ H').
Qed.

Lemma any_unpack2_rule {A} (Q : trace -> Prop) v (F : val * val -> prog A)
    w tr out w' :
  run h (bind (unpack2 v) F) w = (tr, out, w') ->
  (forall r, Q [(Unpack v 2, r)]) ->
  (forall a b w1 tr1,
     run h (F (a, b)) w1 = (tr1, out, w') ->
     Q ((Unpack v 2, RVal (VTuple [a; b])) :: tr1)) ->
  Q tr.
Proof.
  intros H Hf Hk.
  destruct (any_unpack2 _ _ _ _ _ _ H)
    as [(r & ->) | (a & b & w1 & tr1 & -> & H')];
    [apply Hf | exact (Hk _ _ _ _ H')].
Qed.

Lemma any_format_rule {A} (Q : trace -> Prop) v (F : string -> prog A) w tr out w' :
  run h (bind (format_value v) F) w = (tr, out, w') ->
  (forall r, Q [(Format v, r)]) ->
  (forall s w1 tr1,
     run h (F s) w1 = (tr1, out, w') -> Q ((Format v, RVal (VStr s)) :: tr1)) ->
  Q tr.
Proof.
  intros H Hf Hk.
  destruct (any_format _ _ _ _ _ _ H) as [(r & ->) | (s & w1 & tr1 & -> & H')];
    [apply Hf | exact (Hk _ _ _ H')].
Qed.

Lemma all_events_truth P v : P (Truth v) -> all_events P (truth v).
Proof.
  intros H. constructor; [exact H | ].
  intros [[ | | | | | | | | | | ] | e]; constructor.
Qed.

Lemma all_events_format P v : P (Format v) -> all_events P (format_value v).
Proof.
  intros H. constructor; [exact H | ].
  intros [[ | | | | | | | | | | ] | e]; constructor.
Qed.

End MoreSteps.

(** The goal as a predicate of the trace, so that the steps touch the
    trace only. *)
Ltac fold_goal tr :=
  pattern tr;
  lazymatch goal with
  | |- ?P tr => let Q := fresh "Goal" in set (Q := P)
  end.
Ltac unfold_goal :=
  lazymatch goal with
  | |- ?Q _ => subst Q; cbv beta
  end.

(** Steps of an answered run, with the builder's operations in line. *)
Ltac step_flat H Hans :=
  let v := fresh "v" in
  let w := fresh "w" in
  let tr' := fresh "tr" in
  lazymatch type of H with
  | run _ (bind (Demo.create_problem _ _ _) _) _ = _ =>
      unfold Demo.create_problem in H
  | run _ (bind (Ret _) _) _ = _ =>
      cbn [bind] in H; cbv beta iota in H
  | run _ ?p _ = (?tr, _, _) =>
      pattern tr;
      lazymatch p with
      | bind (truth _) _ =>
          refine (run_truth _ _ _ _ _ _ _ _ H Hans _); clear H Hans; intros v w tr' H Hans
      | bind (unpack2 _) _ =>
          let v' := fresh "v" in
          refine (run_unpack2 _ _ _ _ _ _ _ _ H Hans _); clear H Hans;
          intros v v' w tr' H Hans
      | bind (format_value _) _ =>
          refine (run_format _ _ _ _ _ _ _ _ H Hans _); clear H Hans;
          intros v w tr' H Hans
      | bind (bind _ _) _ =>
          refine (run_perform_in _ _ _ _ _ _ _ _ _ H Hans _); clear H Hans;
          intros v w tr' H Hans
      | bind ?q _ =>
          let q' := eval cbv beta delta [getattr setattr setitem call subscript py_eq
                                         print import_name import_from] in q in
          lazymatch q' with
          | perform ?ev =>
              let b := eval cbn in (builtin ev) in
              lazymatch b with
              | Some (RVal ?v0) =>
                  refine (run_builtin_step _ _ ev v0 _ _ _ _ _ eq_refl H Hans _);
                  clear H Hans; intros tr' H Hans
              | _ =>
                  refine (run_perform _ _ _ _ _ _ _ _ H Hans _); clear H Hans;
                  intros v w tr' H Hans
              end
          end
      end;
      clear tr; cbv beta iota in H |- *
  end.
Ltac run_flat tr H Hans :=
  fold_goal tr; repeat step_flat H Hans; unfold_goal; finish H.

(** Steps of any run; [leaf] settles the goal for a run that ends here. *)
Ltac any_step H leaf :=
  let v := fresh "v" in
  let w := fresh "w" in
  let tr' := fresh "tr" in
  lazymatch type of H with
  | run _ (bind (Demo.create_problem _ _ _) _) _ = _ =>
      unfold Demo.create_problem in H
  | run _ (bind (Ret _) _) _ = _ =>
      cbn [bind] in H; cbv beta iota in H
  | run _ ?p _ = (?tr, _, _) =>
      pattern tr;
      lazymatch p with
      | bind (unpack2 _) _ =>
          let v' := fresh "v" in
          refine (any_unpack2_rule _ _ _ _ _ _ _ _ H _ _); clear H; clear tr;
          [ intros v; cbv beta; leaf | intros v v' w tr' H ]
      | bind (format_value _) _ =>
          refine (any_format_rule _ _ _ _ _ _ _ _ H _ _); clear H; clear tr;
          [ intros v; cbv beta; leaf | intros v w tr' H ]
      | bind (bind _ _) _ =>
          refine (any_perform_in_rule _ _ _ _ _ _ _ _ _ H _ _); clear H; clear tr;
          [ intros v; cbv beta; leaf | intros v w tr' H ]
      | bind ?q _ =>
          let q' := eval cbv beta delta [getattr setattr setitem call subscript py_eq
                                         print import_name import_from] in q in
          lazymatch q' with
          | perform ?ev =>
              let b := eval cbn in (builtin ev) in
              lazymatch b with
              | Some (RVal ?v0) =>
                  refine (any_builtin_rule _ _ ev v0 _ _ _ _ _ eq_refl H _);
                  clear H; clear tr; intros tr' H
              | _ =>
                  refine (any_perform_rule _ _ _ _ _ _ _ _ H _ _); clear H; clear tr;
                  [ intros v; cbv beta; leaf | intros v w tr' H ]
              end
          end
      end;
      cbv beta iota in H |- *
  end.
Ltac any_end H :=
  lazymatch type of H with
  | run _ _ _ = (?t, _, _) => pattern t
  end;
  refine (run_ret _ _ _ _ _ _ _ H _); clear H; cbv beta.
Ltac any_run tr H leaf :=
  fold_goal tr; repeat any_step H ltac:(unfold_goal; leaf);
  any_end H; unfold_goal; leaf.

(** Steps of any run that is known to hold an entry of some shape: each
    step compares the new entry with it, and [tac] settles the goal where
    they agree. *)
Ltac peel tac :=
  lazymatch goal with
  | |- In _ [] -> _ => intros []
  | |- In _ (_ :: _) -> _ =>
      let Hin := fresh "Hin" in
      intros [Hin | Hin];
      [ first [discriminate Hin | unfold_goal; inversion Hin; subst; tac]
      | revert Hin ]
  | _ => idtac
  end.
Ltac in_run tr H Hin tac :=
  fold_goal tr; revert Hin;
  repeat (any_step H ltac:(peel tac; intros []); peel tac);
  any_end H; intros [].

(** Opens a conjunction of facts about a run into the context. *)
Ltac open_facts H :=
  lazymatch type of H with
  | exists _, _ =>
      let x := fresh "x" in destruct H as [x H]; open_facts H
  | _ /\ _ =>
      let H1 := fresh "H" in destruct H as [H1 H]; open_facts H1; open_facts H
  | _ => idtac
  end.

(** ** More about the builder *)

Section BuilderMore.
Context {world : Type} (h : world -> event -> resp * world).
Variables dolfin dolfin_adjoint pulse : val.

(** X1. In every run of [create_problem] in which each operation gives a
    result, the geometry of the returned problem is what
    [pulse.HeartGeometry.from_file(pulse.mesh_paths["simple_ellipsoid"])]
    gave, and it is the one object on which the builder reads [mesh],
    [markers], [f0], [s0] and [n0]. *)
Theorem create_problem_one_geometry (w : world) :
  let tr := trace_of h (Demo.create_problem dolfin dolfin_adjoint pulse) w in
  let out := outcome_of h (Demo.create_problem dolfin dolfin_adjoint pulse) w in
  all_answered tr = true ->
  exists problem control,
    out = Done (problem, control) /\
  exists geometry material bcs HeartGeometry from_file mesh_paths path,
    made_by tr pulse "MechanicsProblem" [geometry; material; bcs] [] problem /\
    In (Call from_file [path] [], RVal geometry) tr /\
    attr_of tr HeartGeometry "from_file" from_file /\
    attr_of tr pulse "HeartGeometry" HeartGeometry /\
    item_of tr mesh_paths (VStr "simple_ellipsoid") path /\
    attr_of tr pulse "mesh_paths" mesh_paths /\
    read_from "mesh" tr = [geometry; geometry] /\
    read_from "markers" tr = [geometry; geometry] /\
    read_from "f0" tr = [geometry; geometry] /\
    read_from "s0" tr = [geometry; geometry] /\
    read_from "n0" tr = [geometry; geometry].
Proof.
  intros tr out Hans.
  pose proof (run_eta h _ w : run h _ w = (tr, out, _)) as H.
  clearbody tr out. unfold Demo.create_problem in H.
  run_flat tr H Hans.
  trace_facts.
Qed.

(** X2. In every run of [create_problem] in which each operation gives a
    result, each of the fields [f0], [s0], [n0] handed to the material is a
    new [dolfin_adjoint.Function] on the function space of the geometry's
    field of that name, and is assigned that field of the geometry before
    the material is built. *)
Theorem create_problem_fiber_fields (w : world) :
  let tr := trace_of h (Demo.create_problem dolfin dolfin_adjoint pulse) w in
  let out := outcome_of h (Demo.create_problem dolfin dolfin_adjoint pulse) w in
  all_answered tr = true ->
  exists problem control,
    out = Done (problem, control) /\
  exists geometry material bcs HolzapfelOgden activation matparams f0 s0 n0,
    made_by tr pulse "MechanicsProblem" [geometry; material; bcs] [] problem /\
    attr_of tr pulse "HolzapfelOgden" HolzapfelOgden /\
    In (Call HolzapfelOgden []
          [("activation", activation); ("parameters", matparams);
           ("f0", f0); ("s0", s0); ("n0", n0)], RVal material) tr /\
    (exists space field assign field' r,
       made_by tr dolfin_adjoint "Function" [space] [] f0 /\
       made_by tr field "function_space" [] [] space /\
       attr_of tr geometry "f0" field /\
       attr_of tr f0 "assign" assign /\
       attr_of tr geometry "f0" field' /\
       before (Call assign [field'] [], RVal r)
              (Call HolzapfelOgden []
                 [("activation", activation); ("parameters", matparams);
                  ("f0", f0); ("s0", s0); ("n0", n0)], RVal material) tr) /\
    (exists space field assign field' r,
       made_by tr dolfin_adjoint "Function" [space] [] s0 /\
       made_by tr field "function_space" [] [] space /\
       attr_of tr geometry "s0" field /\
       attr_of tr s0 "assign" assign /\
       attr_of tr geometry "s0" field' /\
       before (Call assign [field'] [], RVal r)
              (Call HolzapfelOgden []
                 [("activation", activation); ("parameters", matparams);
                  ("f0", f0); ("s0", s0); ("n0", n0)], RVal material) tr) /\
    (exists space field assign field' r,
       made_by tr dolfin_adjoint "Function" [space] [] n0 /\
       made_by tr field "function_space" [] [] space /\
       attr_of tr geometry "n0" field /\
       attr_of tr n0 "assign" assign /\
       attr_of tr geometry "n0" field' /\
       before (Call assign [field'] [], RVal r)
              (Call HolzapfelOgden []
                 [("activation", activation); ("parameters", matparams);
                  ("f0", f0); ("s0", s0); ("n0", n0)], RVal material) tr).
Proof.
  intros tr out Hans.
  pose proof (run_eta h _ w : run h _ w = (tr, out, _)) as H.
  clearbody tr out. unfold Demo.create_problem in H.
  run_flat tr H Hans.
  trace_facts.
Qed.

(** X3. In every run of [create_problem] in which each operation gives a
    result, the Neumann entry of the problem's boundary conditions has as
    traction the constant [Constant(0.0, name="lvp")] and the Robin entry has
    as value the constant [Constant(1.0, name="base_spring")]: the problem
    starts unloaded, with a basal spring of stiffness 1.0. *)
Theorem create_problem_loads (w : world) :
  let tr := trace_of h (Demo.create_problem dolfin dolfin_adjoint pulse) w in
  let out := outcome_of h (Demo.create_problem dolfin dolfin_adjoint pulse) w in
  all_answered tr = true ->
  exists problem control,
    out = Done (problem, control) /\
  exists geometry material bcs dirichlet lv_pressure robin
         lvp lv_marker spring base_marker,
    made_by tr pulse "MechanicsProblem" [geometry; material; bcs] [] problem /\
    made_by tr pulse "BoundaryConditions" []
      [("dirichlet", dirichlet); ("neumann", VList [lv_pressure]);
       ("robin", VList [robin])] bcs /\
    made_by tr pulse "NeumannBC" []
      [("traction", lvp); ("marker", lv_marker); ("name", VStr "lv")] lv_pressure /\
    made_by tr dolfin_adjoint "Constant" [VFloat (float_lit 0 1)]
      [("name", VStr "lvp")] lvp /\
    made_by tr pulse "RobinBC" [] [("value", spring); ("marker", base_marker)] robin /\
    made_by tr dolfin_adjoint "Constant" [VFloat (float_lit 10 1)]
      [("name", VStr "base_spring")] spring.
Proof.
  intros tr out Hans.
  pose proof (run_eta h _ w : run h _ w = (tr, out, _)) as H.
  clearbody tr out. unfold Demo.create_problem in H.
  run_flat tr H Hans.
  trace_facts.
Qed.

(** X4. In every run of [create_problem] in which each operation gives a
    result, the activation handed to the material is
    [dolfin_adjoint.Function(dolfin.FunctionSpace(geometry.mesh, "R", 0),
    name="activation")], assigned [dolfin_adjoint.Constant(0.0)] before the
    material is built, and the parameters handed to it are what
    [pulse.HolzapfelOgden.default_parameters()] gave; the control is a
    function on a function space made by a second such call of
    [dolfin.FunctionSpace]. *)
Theorem create_problem_activation (w : world) :
  let tr := trace_of h (Demo.create_problem dolfin dolfin_adjoint pulse) w in
  let out := outcome_of h (Demo.create_problem dolfin dolfin_adjoint pulse) w in
  all_answered tr = true ->
  exists problem control,
    out = Done (problem, control) /\
  exists geometry material bcs HolzapfelOgden activation matparams f0 s0 n0
         R mesh assign zero r HolzapfelOgden' FunctionSpace V mesh' rest,
    made_by tr pulse "MechanicsProblem" [geometry; material; bcs] [] problem /\
    attr_of tr pulse "HolzapfelOgden" HolzapfelOgden /\
    In (Call HolzapfelOgden []
          [("activation", activation); ("parameters", matparams);
           ("f0", f0); ("s0", s0); ("n0", n0)], RVal material) tr /\
    made_by tr dolfin_adjoint "Function" [R] [("name", VStr "activation")] activation /\
    made_by tr dolfin "FunctionSpace" [mesh; VStr "R"; VInt 0] [] R /\
    attr_of tr geometry "mesh" mesh /\
    attr_of tr activation "assign" assign /\
    made_by tr dolfin_adjoint "Constant" [VFloat (float_lit 0 1)] [] zero /\
    before (Call assign [zero] [], RVal r)
           (Call HolzapfelOgden []
              [("activation", activation); ("parameters", matparams);
               ("f0", f0); ("s0", s0); ("n0", n0)], RVal material) tr /\
    attr_of tr pulse "HolzapfelOgden" HolzapfelOgden' /\
    made_by tr HolzapfelOgden' "default_parameters" [] [] matparams /\
    made_by tr dolfin_adjoint "Function" [V] [] control /\
    after (Call FunctionSpace [mesh; VStr "R"; VInt 0] [], RVal R) rest tr /\
    made_by rest dolfin "FunctionSpace" [mesh'; VStr "R"; VInt 0] [] V /\
    attr_of rest geometry "mesh" mesh'.
Proof.
  intros tr out Hans.
  pose proof (run_eta h _ w : run h _ w = (tr, out, _)) as H.
  clearbody tr out. unfold Demo.create_problem in H.
  run_flat tr H Hans.
  trace_facts.
Qed.

End BuilderMore.


Lemma create_problem_one_geometry_witness :
  let h := Stack.handler Stack.ellipsoid in
  let p := Demo.create_problem (VRef 1001) (VRef 1003) (VRef 1005) in
  all_answered (trace_of h p []) = true /\
  exists geometry, read_from "markers" (trace_of h p []) = [geometry; geometry].
Proof.
  intros h p.
  assert (Hans : all_answered (trace_of h p []) = true) by (vm_compute; reflexivity).
  split; [exact Hans | ].
  destruct (create_problem_one_geometry h (VRef 1001) (VRef 1003) (VRef 1005) [] Hans)
    as (_ & _ & _ & geometry & _ & _ & _ & _ & _ & _ & _ & _ & _ & _ & _ & _ & Hm & _).
  exists geometry. exact Hm.
Defined.

Lemma create_problem_fiber_fields_witness :
  let h := Stack.handler Stack.ellipsoid in
  let p := Demo.create_problem (VRef 1001) (VRef 1003) (VRef 1005) in
  all_answered (trace_of h p []) = true /\
  exists problem control, outcome_of h p [] = Done (problem, control).
Proof.
  intros h p.
  assert (Hans : all_answered (trace_of h p []) = true) by (vm_compute; reflexivity).
  split; [exact Hans | ].
  destruct (create_problem_fiber_fields h (VRef 1001) (VRef 1003) (VRef 1005) [] Hans)
    as (problem & control & Hout & _).
  exists problem, control. exact Hout.
Defined.

Lemma create_problem_loads_witness :
  let h := Stack.handler Stack.ellipsoid in
  let p := Demo.create_problem (VRef 1001) (VRef 1003) (VRef 1005) in
  all_answered (trace_of h p []) = true /\
  exists problem control, outcome_of h p [] = Done (problem, control).
Proof.
  intros h p.
  assert (Hans : all_answered (trace_of h p []) = true) by (vm_compute; reflexivity).
  split; [exact Hans | ].
  destruct (create_problem_loads h (VRef 1001) (VRef 1003) (VRef 1005) [] Hans)
    as (problem & control & Hout & _).
  exists problem, control. exact Hout.
Defined.

Lemma create_problem_activation_witness :
  let h := Stack.handler Stack.ellipsoid in
  let p := Demo.create_problem (VRef 1001) (VRef 1003) (VRef 1005) in
  all_answered (trace_of h p []) = true /\
  exists default_parameters matparams,
    In (Call default_parameters [] [], RVal matparams) (trace_of h p []).
Proof.
  intros h p.
  assert (Hans : all_answered (trace_of h p []) = true) by (vm_compute; reflexivity).
  split; [exact Hans | ].
  pose proof (create_problem_activation h (VRef 1001) (VRef 1003) (VRef 1005) [] Hans)
    as Hw.
  cbv zeta in Hw. unfold made_by in Hw. open_facts Hw. do 2 eexists. eassumption.
Defined.

(** ** More about the closure *)

Lemma closure_never_writes dolfin dolfin_adjoint geometry W :
  all_events (fun ev => match ev with
                        | SetAttr _ _ _ | SetItem _ _ _ | Print _ => False
                        | _ => True
                        end)
    (Demo.fix_basal_plane dolfin dolfin_adjoint geometry W).
Proof.
  unfold Demo.fix_basal_plane.
  repeat first
    [ apply all_events_bind; [ | intros ]
    | apply all_events_perform; exact I
    | apply all_events_truth; exact I
    | constructor
    | match goal with |- all_events _ (if ?b then _ else _) => destruct b end ].
Qed.

Section ClosureMore.
Context {world : Type} (h : world -> event -> resp * world).

(** X5. In no run does the closure [fix_basal_plane] assign an attribute
    or an item or print: all it does to the world is read and call. *)
Theorem fix_basal_plane_only_reads_and_calls (dolfin dolfin_adjoint geometry W : val)
    (w : world) :
  let tr := trace_of h (Demo.fix_basal_plane dolfin dolfin_adjoint geometry W) w in
  assignments tr = [] /\ printed tr = [].
Proof.
  intros tr.
  pose proof (all_events_run h _ _ (closure_never_writes dolfin dolfin_adjoint geometry W)
                _ _ _ _ (run_eta h _ w)) as Hall.
  fold tr in Hall. clearbody tr.
  induction Hall as [|[ev r] l Hev _ [IHa IHp]]; [split; reflexivity | ].
  destruct ev; simpl in *; try contradiction; split; assumption.
Qed.

End ClosureMore.

(** ** More about demo.py *)

Section DemoMore.
Context {world : Type} (h : world -> event -> resp * world).

Lemma item_of_pair_trace {A} (p : prog A) w i d id :
  item_of (trace_of h p w) (VTuple [i; d]) (VInt 0) id -> id = i.
Proof. intros Hin. eapply item_of_pair; [apply run_eta | exact Hin]. Qed.

(** X6. In every run of demo.py in which each operation gives a result,
    the control handed to the [Assimilator] is the very object the builder
    stored as [matparams["a"]], and [matparams] is the parameter set of the
    material of the problem handed to the same [Assimilator]: the optimizer
    varies the parameter the forward model uses. *)
Theorem demo_control_is_material_parameter (w : world) :
  let tr := trace_of h Demo.script w in
  all_answered tr = true ->
  exists pulse pulse_adjoint problem control targets pressure_obs assimilator
         geometry material bcs HolzapfelOgden activation matparams f0 s0 n0 r,
    In (ImportName "pulse", RVal pulse) tr /\
    In (ImportName "pulse_adjoint", RVal pulse_adjoint) tr /\
    made_by tr pulse_adjoint "Assimilator" [problem]
      [("targets", targets); ("bcs", pressure_obs); ("control", control)]
      assimilator /\
    made_by tr pulse "MechanicsProblem" [geometry; material; bcs] [] problem /\
    attr_of tr pulse "HolzapfelOgden" HolzapfelOgden /\
    before (SetItem matparams (VStr "a") control, r)
           (Call HolzapfelOgden []
              [("activation", activation); ("parameters", matparams);
               ("f0", f0); ("s0", s0); ("n0", n0)], RVal material) tr.
Proof.
  intros tr Hans.
  pose proof (run_eta h _ w : run h _ w = (tr, _, _)) as H.
  clearbody tr. unfold Demo.script, Demo.main in H.
  run_flat tr H Hans.
  trace_facts.
Qed.

(** X7. In every run of demo.py in which each operation gives a result,
    the [Assimilator] gets exactly one target, the volume data [2.8] paired
    with a [VolumeObservation] on the problem's mesh and on
    [problem.geometry.ds(endo)], where [endo] is
    [problem.geometry.markers["ENDO"][0]] (the id, when the table entry is a
    pair); and its [bcs] is the [BoundaryObservation] that pairs
    [problem.bcs.neumann[0]] with the pressure data [0.1]. *)
Theorem demo_observations (w : world) :
  let tr := trace_of h Demo.script w in
  all_answered tr = true ->
  exists pulse_adjoint problem control volume_target pressure_obs assimilator
         volume_model observations VolumeObservation mesh dmu g_mesh g_ds ds
         g_markers entry endo observations' BoundaryObservation bcs neumann lv,
    In (ImportName "pulse_adjoint", RVal pulse_adjoint) tr /\
    made_by tr pulse_adjoint "Assimilator" [problem]
      [("targets", VList [volume_target]); ("bcs", pressure_obs);
       ("control", control)] assimilator /\
    (* the target *)
    made_by tr pulse_adjoint "OptimizationTarget"
      [VList [VFloat (float_lit 28 1)]; volume_model] [] volume_target /\
    In (Call VolumeObservation [mesh; dmu] [], RVal volume_model) tr /\
    attr_of tr observations "VolumeObservation" VolumeObservation /\
    attr_of tr pulse_adjoint "model_observations" observations /\
    attr_of tr g_mesh "mesh" mesh /\
    attr_of tr problem "geometry" g_mesh /\
    In (Call ds [endo] [], RVal dmu) tr /\
    attr_of tr g_ds "ds" ds /\
    attr_of tr problem "geometry" g_ds /\
    marker_of tr g_markers "ENDO" entry endo /\
    attr_of tr problem "geometry" g_markers /\
    (* the pressure observation *)
    In (Call BoundaryObservation [lv; VList [VFloat (float_lit 1 1)]] [],
        RVal pressure_obs) tr /\
    attr_of tr observations' "BoundaryObservation" BoundaryObservation /\
    attr_of tr pulse_adjoint "model_observations" observations' /\
    item_of tr neumann (VInt 0) lv /\
    attr_of tr bcs "neumann" neumann /\
    attr_of tr problem "bcs" bcs /\
    (forall i d, entry = VTuple [i; d] -> endo = i).
Proof.
  intros tr Hans.
  pose proof (run_eta h _ w : run h _ w = (tr, _, _)) as Hrun.
  clearbody tr. pose proof Hrun as H. unfold Demo.script, Demo.main in H.
  repeat step_script H Hans. finish H.
  trace_facts.
  intros i d ->. eapply item_of_pair; [exact Hrun | trace_facts].
Qed.

(** X8. In every run of demo.py, whatever the world does: every call is
    made after [pulse.annotation.annotate = True] was done.  The problem is
    built, and everything after it is done, with annotation switched on. *)
Theorem demo_annotates_before_any_call (w : world) :
  let tr := trace_of h Demo.script w in
  forall f args kw r,
    In (Call f args kw, r) tr ->
    exists pulse annotation r0,
      In (ImportName "pulse", RVal pulse) tr /\
      attr_of tr pulse "annotation" annotation /\
      before (SetAttr annotation "annotate" (VBool true), RVal r0)
             (Call f args kw, r) tr.
Proof.
  intros tr f args kw r Hin.
  pose proof (run_eta h _ w : run h _ w = (tr, _, _)) as H.
  clearbody tr. unfold Demo.script, Demo.main in H.
  in_run tr H Hin ltac:(solve [trace_facts]).
Qed.

(** X9. In every run of demo.py in which each operation gives a result,
    the model volume that is printed is [problem.geometry.cavity_volume(u=u)]
    where [u] is the first of the two fields [dolfin.split(problem.state)]
    unpacks to, and [problem.state] is read after [problem.solve()]
    returned; [problem] is the object handed to the [Assimilator]. *)
Theorem demo_model_volume_of_resolved_state (w : world) :
  let tr := trace_of h Demo.script w in
  all_answered tr = true ->
  exists dolfin pulse_adjoint problem control targets pressure_obs assimilator
         solve r post state up u p geometry volume s r',
    In (ImportName "dolfin", RVal dolfin) tr /\
    In (ImportName "pulse_adjoint", RVal pulse_adjoint) tr /\
    made_by tr pulse_adjoint "Assimilator" [problem]
      [("targets", targets); ("bcs", pressure_obs); ("control", control)]
      assimilator /\
    attr_of tr problem "solve" solve /\
    after (Call solve [] [], RVal r) post tr /\
    attr_of post problem "state" state /\
    made_by post dolfin "split" [state] [] up /\
    In (Unpack up 2, RVal (VTuple [u; p])) tr /\
    made_by tr geometry "cavity_volume" [] [("u", u)] volume /\
    attr_of tr problem "geometry" geometry /\
    In (Format volume, RVal (VStr s)) tr /\
    In (Print [VStr ("Model volume: " ++ s)%string], r') tr.
Proof.
  intros tr Hans.
  pose proof (run_eta h _ w : run h _ w = (tr, _, _)) as H.
  clearbody tr. unfold Demo.script, Demo.main in H.
  repeat step_script H Hans. finish H.
  trace_facts.
Qed.

(** X10. In every run of demo.py, whatever the world does: a line is
    printed only after [assimilate()] returned and [problem.solve()] was
    called after that and returned.  A run that fails before the problem is
    solved again reports nothing. *)
Theorem demo_reports_only_after_resolve (w : world) :
  let tr := trace_of h Demo.script w in
  forall line r,
    In (Print line, r) tr ->
    exists assimilator assimilate result problem solve r0,
      attr_of tr assimilator "assimilate" assimilate /\
      attr_of tr problem "solve" solve /\
      before (Call assimilate [] [], RVal result) (Call solve [] [], RVal r0) tr /\
      before (Call solve [] [], RVal r0) (Print line, r) tr.
Proof.
  intros tr line r Hin.
  pose proof (run_eta h _ w : run h _ w = (tr, _, _)) as H.
  clearbody tr. unfold Demo.script, Demo.main in H.
  in_run tr H Hin ltac:(solve [trace_facts]).
Qed.

End DemoMore.

Lemma demo_control_is_material_parameter_witness :
  all_answered ellipsoid_demo = true /\
  exists matparams control r HolzapfelOgden args kw material,
    before (SetItem matparams (VStr "a") control, r)
           (Call HolzapfelOgden args kw, RVal material) ellipsoid_demo.
Proof.
  assert (Hans : all_answered ellipsoid_demo = true) by (vm_compute; reflexivity).
  split; [exact Hans | ].
  pose proof (demo_control_is_material_parameter (Stack.handler Stack.ellipsoid) [] Hans)
    as Hw.
  cbv zeta in Hw. open_facts Hw. do 7 eexists. eassumption.
Defined.

Lemma demo_observations_witness :
  all_answered ellipsoid_demo = true /\
  exists ds endo dmu, In (Call ds [endo] [], RVal dmu) ellipsoid_demo.
Proof.
  assert (Hans : all_answered ellipsoid_demo = true) by (vm_compute; reflexivity).
  split; [exact Hans | ].
  pose proof (demo_observations (Stack.handler Stack.ellipsoid) [] Hans) as Hw.
  cbv zeta in Hw. open_facts Hw. do 3 eexists. eassumption.
Defined.

Lemma demo_annotates_before_any_call_witness :
  In (Call (VRef 14) [VRef 18] [], RVal (VRef 20)) ellipsoid_demo /\
  exists annotation r0,
    before (SetAttr annotation "annotate" (VBool true), RVal r0)
           (Call (VRef 14) [VRef 18] [], RVal (VRef 20)) ellipsoid_demo.
Proof.
  assert (Hin : In (Call (VRef 14) [VRef 18] [], RVal (VRef 20)) ellipsoid_demo)
    by (apply (nth_error_In _ 10); vm_compute; reflexivity).
  split; [exact Hin | ].
  pose proof (demo_annotates_before_any_call (Stack.handler Stack.ellipsoid) []
                _ _ _ _ Hin) as Hw.
  cbv zeta in Hw. open_facts Hw. do 2 eexists. eassumption.
Defined.

Lemma demo_model_volume_of_resolved_state_witness :
  all_answered ellipsoid_demo = true /\
  exists s r, In (Print [VStr ("Model volume: " ++ s)%string], r) ellipsoid_demo.
Proof.
  assert (Hans : all_answered ellipsoid_demo = true) by (vm_compute; reflexivity).
  split; [exact Hans | ].
  pose proof (demo_model_volume_of_resolved_state (Stack.handler Stack.ellipsoid) [] Hans)
    as Hw.
  cbv zeta in Hw. open_facts Hw. do 2 eexists. eassumption.
Defined.

Lemma demo_reports_only_after_resolve_witness :
  In (Print [VStr "Target volume: 2.8"], RVal VNone) ellipsoid_demo /\
  exists solve r0,
    before (Call solve [] [], RVal r0)
           (Print [VStr "Target volume: 2.8"], RVal VNone) ellipsoid_demo.
Proof.
  assert (Hin : In (Print [VStr "Target volume: 2.8"], RVal VNone) ellipsoid_demo)
    by (apply (nth_error_In _ 119); vm_compute; reflexivity).
  split; [exact Hin | ].
  pose proof (demo_reports_only_after_resolve (Stack.handler Stack.ellipsoid) []
                _ _ Hin) as Hw.
  cbv zeta in Hw. open_facts Hw. do 2 eexists. eassumption.
Defined.

(** ** More about tests/test_assimilator.py *)

Lemma reads_none a tr :
  Forall (fun e => reads_only (fun a' => a' <> a) (fst e)) tr -> read_from a tr = [].
Proof.
  induction 1 as [|[ev r] tr Hev _ IH]; [reflexivity | ].
  destruct ev; simpl in *; try exact IH.
  destruct (String.eqb_spec a attr) as [-> | _]; [ | exact IH].
  exfalso. apply Hev. reflexivity.
Qed.

Lemma test_reads_only P :
  Forall P ["create_problem"; "geometry"; "VectorFunctionSpace"; "mesh"; "Function";
            "ds"; "markers"; "vector"; "get_local"; "bcs"; "neumann"; "assimilate"] ->
  all_events (reads_only P) TestAssimilator.script.
Proof.
  intros HP. rewrite Forall_forall in HP.
  unfold TestAssimilator.script, TestAssimilator.main.
  repeat first
    [ apply all_events_bind; [ | intros ]
    | apply all_events_perform; first [exact I | apply HP; simpl; tauto]
    | apply all_events_unpack2; exact I
    | constructor
    | match goal with x : (val * val)%type |- _ => destruct x end ].
Qed.

Section TestMore.
Context {world : Type} (h : world -> event -> resp * world).

(** X11. In every run of tests/test_assimilator.py, whatever the world
    does: the measure handed to [VolumeObservation] as [dmu] is what
    [geo.ds(entry)] gave, where [entry] is [geo.markers["ENDO"]] as the table
    holds it, with no [[0]] taken; [geo] is the geometry whose mesh is handed
    over as [mesh], and the callee is the imported [VolumeObservation]. *)
Theorem test_observation_on_marker_entry (w : world) :
  let tr := trace_of h TestAssimilator.script w in
  forall f mesh dmu r,
    In (Call f [] [("mesh", mesh); ("dmu", dmu);
                   ("description", VStr "Test LV volume")], r) tr ->
    exists pulse_adjoint geo markers entry ds,
      In (ImportFrom pulse_adjoint "VolumeObservation", RVal f) tr /\
      attr_of tr geo "mesh" mesh /\
      attr_of tr geo "markers" markers /\
      item_of tr markers (VStr "ENDO") entry /\
      attr_of tr geo "ds" ds /\
      In (Call ds [entry] [], RVal dmu) tr.
Proof.
  intros tr f mesh dmu r Hin.
  pose proof (run_eta h _ w : run h _ w = (tr, _, _)) as H.
  clearbody tr. unfold TestAssimilator.script, TestAssimilator.main in H.
  in_run tr H Hin ltac:(solve [trace_facts]).
Qed.

(** X12. In every run of tests/test_assimilator.py, whatever the world
    does: either nothing is printed, or exactly one line is, and it is
    [volume_obs(u).vector().get_local()[0]] where [u] is a new
    [dolfin.Function] on [VectorFunctionSpace(geo.mesh, "CG", 2)] and
    [volume_obs] is the [VolumeObservation] the script made: the volume
    before any displacement is applied. *)
Theorem test_prints_undeformed_volume (w : world) :
  let tr := trace_of h TestAssimilator.script w in
  printed tr = [] \/
  exists dolfin pulse_adjoint VolumeObservation kw volume_obs geo mesh V u
         obs vec arr model_volume,
    printed tr = [[model_volume]] /\
    item_of tr arr (VInt 0) model_volume /\
    made_by tr vec "get_local" [] [] arr /\
    made_by tr obs "vector" [] [] vec /\
    In (Call volume_obs [u] [], RVal obs) tr /\
    In (Call VolumeObservation [] kw, RVal volume_obs) tr /\
    In (ImportFrom pulse_adjoint "VolumeObservation", RVal VolumeObservation) tr /\
    made_by tr dolfin "Function" [V] [] u /\
    made_by tr dolfin "VectorFunctionSpace" [mesh; VStr "CG"; VInt 2] [] V /\
    attr_of tr geo "mesh" mesh /\
    In (ImportName "dolfin", RVal dolfin) tr.
Proof.
  intros tr.
  pose proof (run_eta h _ w : run h _ w = (tr, _, _)) as H.
  clearbody tr. unfold TestAssimilator.script, TestAssimilator.main in H.
  any_run tr H ltac:(first [left; reflexivity | right; solve [trace_facts]]).
Qed.

(** X13. In every run of tests/test_assimilator.py, whatever the world
    does: the [Assimilator] is called with the problem and the control that
    [fixtures.create_problem()] unpacked to, with the target
    [OptimizationTarget((2.7, 2.9), volume_obs, collect=True)] and with
    [BoundaryObservation(bc=problem.bcs.neumann[0], data=[0.5, 1.0])]. *)
Theorem test_assimilator_arguments (w : world) :
  let tr := trace_of h TestAssimilator.script w in
  forall f problem target bcs control r,
    In (Call f [problem; target; bcs; control] [], r) tr ->
    exists fixtures pulse_adjoint OptimizationTarget VolumeObservation kw volume_obs
           BoundaryObservation pbcs neumann lv pc,
      In (ImportName "fixtures", RVal fixtures) tr /\
      made_by tr fixtures "create_problem" [] [] pc /\
      In (Unpack pc 2, RVal (VTuple [problem; control])) tr /\
      In (ImportFrom pulse_adjoint "Assimilator", RVal f) tr /\
      In (ImportFrom pulse_adjoint "OptimizationTarget", RVal OptimizationTarget) tr /\
      In (Call OptimizationTarget
            [VTuple [VFloat (float_lit 27 1); VFloat (float_lit 29 1)]; volume_obs]
            [("collect", VBool true)], RVal target) tr /\
      In (Call VolumeObservation [] kw, RVal volume_obs) tr /\
      In (ImportFrom pulse_adjoint "VolumeObservation", RVal VolumeObservation) tr /\
      In (ImportFrom pulse_adjoint "BoundaryObservation", RVal BoundaryObservation) tr /\
      In (Call BoundaryObservation []
            [("bc", lv);
             ("data", VList [VFloat (float_lit 5 1); VFloat (float_lit 10 1)])],
          RVal bcs) tr /\
      item_of tr neumann (VInt 0) lv /\
      attr_of tr pbcs "neumann" neumann /\
      attr_of tr problem "bcs" pbcs.
Proof.
  intros tr f problem target bcs control r Hin.
  pose proof (run_eta h _ w : run h _ w = (tr, _, _)) as H.
  clearbody tr. unfold TestAssimilator.script, TestAssimilator.main in H.
  in_run tr H Hin ltac:(solve [trace_facts]).
Qed.

(** X14. In no run does tests/test_assimilator.py read an attribute named
    [solve], [assign] or [material]: whatever [assimilate()] leaves in the
    problem, the test driver neither writes the result back nor solves
    again. *)
Theorem test_never_resolves (w : world) :
  let tr := trace_of h TestAssimilator.script w in
  read_from "solve" tr = [] /\
  read_from "assign" tr = [] /\
  read_from "material" tr = [].
Proof.
  intros tr.
  repeat split; apply reads_none;
    (eapply (all_events_run h); [ | apply run_eta]);
    apply test_reads_only; repeat constructor; discriminate.
Qed.

(** X15. In every run of tests/test_assimilator.py, whatever the world
    does: [IPython] is imported, and so the interactive shell opened, only
    after [assimilate()] was called on what the [Assimilator] call gave, and
    returned. *)
Theorem test_shell_after_assimilation (w : world) :
  let tr := trace_of h TestAssimilator.script w in
  forall r,
    In (ImportName "IPython", r) tr ->
    exists Assimilator args assimilator assimilate result,
      In (Call Assimilator args [], RVal assimilator) tr /\
      List.length args = 4%nat /\
      attr_of tr assimilator "assimilate" assimilate /\
      before (Call assimilate [] [], RVal result) (ImportName "IPython", r) tr.
Proof.
  intros tr r Hin.
  pose proof (run_eta h _ w : run h _ w = (tr, _, _)) as H.
  clearbody tr. unfold TestAssimilator.script, TestAssimilator.main in H.
  in_run tr H Hin ltac:(solve [trace_facts]).
Qed.

End TestMore.

Lemma test_observation_on_marker_entry_witness :
  In (Call (VRef 12) []
        [("mesh", VRef 30); ("dmu", VRef 38); ("description", VStr "Test LV volume")],
      RVal (VRef 40)) ellipsoid_test /\
  exists ds entry, In (Call ds [entry] [], RVal (VRef 38)) ellipsoid_test.
Proof.
  assert (Hin : In (Call (VRef 12) []
                      [("mesh", VRef 30); ("dmu", VRef 38);
                       ("description", VStr "Test LV volume")], RVal (VRef 40))
                   ellipsoid_test)
    by (apply (nth_error_In _ 21); vm_compute; reflexivity).
  split; [exact Hin | ].
  pose proof (test_observation_on_marker_entry (Stack.handler Stack.ellipsoid) []
                _ _ _ _ Hin) as Hw.
  cbv zeta in Hw. open_facts Hw. do 2 eexists. eassumption.
Defined.

Lemma test_assimilator_arguments_witness :
  In (Call (VRef 6) [VRef 16; VRef 56; VRef 64; VRef 17] [], RVal (VRef 66))
     ellipsoid_test /\
  exists pc, In (Unpack pc 2, RVal (VTuple [VRef 16; VRef 17])) ellipsoid_test.
Proof.
  assert (Hin : In (Call (VRef 6) [VRef 16; VRef 56; VRef 64; VRef 17] [], RVal (VRef 66))
                   ellipsoid_test)
    by (apply (nth_error_In _ 34); vm_compute; reflexivity).
  split; [exact Hin | ].
  pose proof (test_assimilator_arguments (Stack.handler Stack.ellipsoid) []
                _ _ _ _ _ _ Hin) as Hw.
  cbv zeta in Hw. open_facts Hw. eexists. eassumption.
Defined.

Lemma test_shell_after_assimilation_witness :
  In (ImportName "IPython", RVal (VRef 72)) ellipsoid_test /\
  exists assimilate result,
    before (Call assimilate [] [], RVal result)
           (ImportName "IPython", RVal (VRef 72)) ellipsoid_test.
Proof.
  assert (Hin : In (ImportName "IPython", RVal (VRef 72)) ellipsoid_test)
    by (apply (nth_error_In _ 37); vm_compute; reflexivity).
  split; [exact Hin | ].
  pose proof (test_shell_after_assimilation (Stack.handler Stack.ellipsoid) [] _ Hin)
    as Hw.
  cbv zeta in Hw. open_facts Hw. do 2 eexists. eassumption.
Defined.

(** ** Module-level state *)





Section ModuleState.
Context {world : Type} (h : world -> event -> resp * world).


End ModuleState.

